(** * The notebook front end of CloudeasyML: execution coordinator, export and
      output renderer

    Shallow embedding of
      - [frontend/src/components/notebook/notebook-interface.tsx]
        ([executeCell], [runAllCells], [restartKernel], [interruptKernel],
        [exportNotebook]) and
      - [frontend/src/components/notebook/cell-output.tsx]
        ([OutputRenderer], [DisplayDataOutput]).

    The zustand store ([lib/stores/notebook-store.ts]) and the kernel client
    ([lib/jupyter/kernel-client.ts]) are imported by these files but are not
    part of the sources at hand.  The store's setters are modelled from the
    design document and from their call sites; the kernel client is an
    interface ([JupyterKernelClient]) whose behaviour is a parameter. *)

From Stdlib Require Import Ascii String.
From stdpp Require Import base option list strings gmap.

Set Default Proof Using "Type".
Local Open Scope string_scope.
Local Open Scope list_scope.

(** ** JavaScript values and the nbformat output model *)

Module Nbformat.

(** A JavaScript value as found in a MIME bundle: a scalar, a multi-line
    string given as an array of lines, or a JSON object (kept as its list
    of key and serialized value: the components only test it for
    truthiness and pass it on). *)
Inductive JsValue : Type :=
  | JNull
  | JBool (b : bool)
  | JNum (n : Z)
  | JStr (s : string)
  | JArr (items : list string)
  | JObj (fields : list (string * string)).

(** JavaScript truthiness ([if (v)]): [null], [false], [0] and the empty
    string are falsy; every array and every object is truthy. *)
Definition truthy (v : JsValue) : bool :=
  match v with
  | JNull => false
  | JBool b => b
  | JNum n => negb (n =? 0)%Z
  | JStr s => negb (bool_decide (s = ""))
  | JArr _ => true
  | JObj _ => true
  end.

(** [IOutput] of [@jupyterlab/nbformat]: a union tagged by [output_type]. *)
Inductive IOutput : Type :=
  | IStream (name : string) (text : JsValue)
  | IExecuteResult (data : gmap string JsValue) (execution_count : option Z)
  | IDisplayData (data : gmap string JsValue)
  | IError (ename evalue : string) (traceback : list string)
  | IUnrecognized (tag : string).

Definition output_type (o : IOutput) : string :=
  match o with
  | IStream _ _ => "stream"
  | IExecuteResult _ _ => "execute_result"
  | IDisplayData _ => "display_data"
  | IError _ _ _ => "error"
  | IUnrecognized tag => tag
  end.

(** [output.output_type === 'error'] *)
Definition is_error (o : IOutput) : bool :=
  bool_decide (output_type o = "error").

End Nbformat.
Import Nbformat.

(** ** The notebook store *)

Module NotebookStore.

Inductive CellType : Type := code | markdown.
Inductive CellStatus : Type := cell_idle | running | completed | error.
(** The union type of [kernelStatus] (spelled out in the toolbar's props). *)
Inductive KernelStatus : Type :=
  | disconnected | connecting | connected | busy | idle | restarting.

#[global] Instance CellType_eq_dec : EqDecision CellType.
Proof. solve_decision. Defined.
#[global] Instance CellStatus_eq_dec : EqDecision CellStatus.
Proof. solve_decision. Defined.
#[global] Instance KernelStatus_eq_dec : EqDecision KernelStatus.
Proof. solve_decision. Defined.

(** [cell.metadata] is an optional object; its contents are opaque here. *)
Definition Metadata : Type := list (string * JsValue).

(** The fields of a cell that the components read. *)
Record NotebookCell : Type := mkCell {
  id : string;
  type : CellType;
  source : string;
  outputs : list IOutput;
  executionCount : option Z;
  status : CellStatus;
  metadata : option Metadata;
}.

Record NotebookState : Type := mkState {
  cells : list NotebookCell;
  activeCellId : option string;
  kernelStatus : KernelStatus;
}.

(** The setters of the store that the notebook interface calls. *)
Inductive StoreAction : Type :=
  | UpdateCellOutputs (cellId : string) (outs : list IOutput)
  | UpdateCellStatus (cellId : string) (st : CellStatus)
  | UpdateCellExecutionCount (cellId : string) (n : Z)
  | ClearAllOutputs
  | SetKernelStatus (st : KernelStatus).

Definition set_outputs (outs : list IOutput) (c : NotebookCell) : NotebookCell :=
  mkCell (id c) (type c) (source c) outs (executionCount c) (status c) (metadata c).
Definition set_status (st : CellStatus) (c : NotebookCell) : NotebookCell :=
  mkCell (id c) (type c) (source c) (outputs c) (executionCount c) st (metadata c).
Definition set_executionCount (n : option Z) (c : NotebookCell) : NotebookCell :=
  mkCell (id c) (type c) (source c) (outputs c) n (status c) (metadata c).

(** Apply [f] to the cells whose id is [cellId], leave the others alone. *)
Definition update_cell (cellId : string) (f : NotebookCell -> NotebookCell)
    (cs : list NotebookCell) : list NotebookCell :=
  (fun c => if bool_decide (id c = cellId) then f c else c) <$> cs.

Definition with_cells (f : list NotebookCell -> list NotebookCell)
    (s : NotebookState) : NotebookState :=
  mkState (f (cells s)) (activeCellId s) (kernelStatus s).

(** Modelled from the spec: [lib/stores/notebook-store.ts] is not among the
    sources.  Section 4.3 of the design lists the operations of the cell
    store: update-status, set-execution-sequence and the output setter
    address one cell by its id and touch that one field only;
    clear-all-outputs "resets every cell's outputs = [] and status = idle
    without touching source"; the kernel status is one field of the store.
    The argument lists are those of the call sites in
    [notebook-interface.tsx]. *)
Definition reduce (a : StoreAction) (s : NotebookState) : NotebookState :=
  match a with
  | UpdateCellOutputs cellId outs => with_cells (update_cell cellId (set_outputs outs)) s
  | UpdateCellStatus cellId st => with_cells (update_cell cellId (set_status st)) s
  | UpdateCellExecutionCount cellId n =>
      with_cells (update_cell cellId (set_executionCount (Some n))) s
  | ClearAllOutputs =>
      with_cells (fmap (fun c => set_status cell_idle (set_outputs [] c))) s
  | SetKernelStatus st => mkState (cells s) (activeCellId s) st
  end.

End NotebookStore.
Import NotebookStore.

(** ** The kernel client, seen from its caller *)

Module KernelClient.

(** A thrown JavaScript [Error]: the name of its class and its message. *)
Record JsError : Type := mkError { name : string; message : string }.

(** How a call or an awaited promise completes: normally with a value, or
    abruptly with a thrown error (a rejected promise, once awaited). *)
Inductive Completion (A : Type) : Type :=
  | Normal (a : A)
  | Throw (e : JsError).
Arguments Normal {A} a.
Arguments Throw {A} e.

(** The value [executeCode] resolves with. *)
Record ExecuteResult : Type := mkResult {
  result_executionCount : option Z;
  result_outputs : list IOutput;
}.

(** What the event loop runs while [executeCell] is suspended on
    [await kernelClient.executeCode(...)]: the client invokes one of the two
    callbacks it was given, or the user clicks the toolbar's interrupt
    button. *)
Inductive LoopEvent : Type :=
  | Output (o : IOutput)
  | Status (st : KernelStatus)
  | InterruptClicked.

(** One execution as the caller observes it: the events in arrival order,
    then the settlement of the promise. *)
Record Run : Type := mkRun {
  events : list LoopEvent;
  settled : Completion ExecuteResult;
}.

(** The outputs handed to the [onOutput] callback, in arrival order. *)
Definition emitted (evs : list LoopEvent) : list IOutput :=
  omap (fun ev => match ev with Output o => Some o | _ => None end) evs.

(** The methods of [JupyterKernelClient] that the notebook interface calls,
    over the client's internal state [K]. *)
Class JupyterKernelClient (K : Type) : Type := {
  isReady : K -> bool;
  executeCode : K -> string -> Run * K;
  restart : K -> Completion unit * K;
  interrupt : K -> Completion unit * K;
}.

(** A run that resolves with the very outputs it streamed, in the order it
    streamed them.  Whether the client of [lib/jupyter/kernel-client.ts] does
    so cannot be read off the sources, and the design document does not say:
    its "terminal(executionSequence | error)" carries no outputs.  [faithful]
    is therefore an assumption about the client; it only ever appears as an
    explicit hypothesis. *)
Definition faithful (r : Run) : Prop :=
  forall res, settled r = Normal res -> result_outputs res = emitted (events r).

End KernelClient.
Import KernelClient.

(** ** Tasks: state, a call log and exceptions *)

(** What a test double would record: the toasts, the console, the calls made
    on the kernel client and the actions dispatched to the store. *)
Inductive Call : Type :=
  | toast_error (msg : string)
  | toast_success (msg : string)
  | console_error (msg : string) (e : JsError)
  | executeCode_call (src : string)
  | restart_call
  | interrupt_call
  | store_call (a : StoreAction).

Section Tasks.
Context {K : Type}.

(** The mutable world of the component: the store, the kernel client object
    held in React state ([null] until it is created) in its current internal
    state, and the call log. *)
Record World : Type := mkWorld {
  store : NotebookState;
  kernelClient : option K;
  calls : list Call;
}.

Definition Task (A : Type) : Type := World -> Completion A * World.

Definition ret {A} (a : A) : Task A := fun w => (Normal a, w).

Definition bind {A B} (m : Task A) (f : A -> Task B) : Task B :=
  fun w => match m w with
           | (Normal a, w') => f a w'
           | (Throw e, w') => (Throw e, w')
           end.

(** [try { body } catch (error) { handler }] *)
Definition try_catch {A} (body : Task A) (handler : JsError -> Task A) : Task A :=
  fun w => match body w with
           | (Normal a, w') => (Normal a, w')
           | (Throw e, w') => handler e w'
           end.

Definition log (c : Call) : Task unit :=
  fun w => (Normal tt, mkWorld (store w) (kernelClient w) (calls w ++ [c])).

(** Calling a setter of the store. *)
Definition dispatch (a : StoreAction) : Task unit :=
  fun w => (Normal tt,
            mkWorld (reduce a (store w)) (kernelClient w) (calls w ++ [store_call a])).

Definition set_client (k : K) : Task unit :=
  fun w => (Normal tt, mkWorld (store w) (Some k) (calls w)).

(** Resuming after [await p]: the value, or the rejection thrown. *)
Definition settle {A} (c : Completion A) : Task A := fun w => (c, w).

End Tasks.
Arguments World K : clear implicits.
Arguments Task K A : clear implicits.

Declare Scope task_scope.
Delimit Scope task_scope with task.
Notation "x <- m ;; k" := (bind m (fun x => k))
  (at level 100, m at next level, right associativity) : task_scope.
Notation "m ;; k" := (bind m (fun _ => k))
  (at level 100, right associativity) : task_scope.
Local Open Scope task_scope.

(** [for (const x of xs) { await body(x) }] *)
Fixpoint for_of {K A} (xs : list A) (body : A -> Task K unit) : Task K unit :=
  match xs with
  | [] => ret tt
  | x :: xs' => body x ;; for_of xs' body
  end.

(** ** notebook-interface.tsx *)

Section NotebookInterface.
Context {K : Type} `{!JupyterKernelClient K}.

(** The setters obtained from [useNotebookStore()]. *)
Definition updateCellOutputs (cellId : string) (outs : list IOutput) : Task K unit :=
  dispatch (UpdateCellOutputs cellId outs).
Definition updateCellStatus (cellId : string) (st : CellStatus) : Task K unit :=
  dispatch (UpdateCellStatus cellId st).
Definition updateCellExecutionCount (cellId : string) (n : Z) : Task K unit :=
  dispatch (UpdateCellExecutionCount cellId n).
Definition clearAllOutputs : Task K unit := dispatch ClearAllOutputs.
Definition setKernelStatus (st : KernelStatus) : Task K unit :=
  dispatch (SetKernelStatus st).

Definition read_client : Task K (option K) := fun w => (Normal (kernelClient w), w).

(** Calling a method on [null]; unreachable behind the guards below. *)
Definition null_client : JsError :=
  mkError "TypeError" "Cannot read properties of null".

(** [await kernelClient.interrupt()] and [await kernelClient.restart()]. *)
Definition await_method (c : Call) (method : K -> Completion unit * K) : Task K unit :=
  kc <- read_client ;;
  match kc with
  | None => settle (Throw null_client)
  | Some k => log c ;; set_client (method k).2 ;; settle (method k).1
  end.

(** [interruptKernel], lines 151-162.  The handler is taken as one step of
    the event loop: nothing else is interleaved between the call of
    [interrupt()] and the code after its [await]. *)
Definition interruptKernel : Task K unit :=
  kc <- read_client ;;
  match kc with
  | None => ret tt
  | Some _ =>
      try_catch
        (await_method interrupt_call interrupt ;;
         setKernelStatus idle ;;
         log (toast_success "Kernel interrupted"))
        (fun e =>
           log (console_error "Failed to interrupt kernel:" e) ;;
           log (toast_error "Failed to interrupt kernel"))
  end.

(** One turn of the event loop while an execution is pending. *)
Definition deliver (onOutput : IOutput -> Task K unit)
    (onStatus : KernelStatus -> Task K unit) (ev : LoopEvent) : Task K unit :=
  match ev with
  | Output o => onOutput o
  | Status st => onStatus st
  | InterruptClicked => interruptKernel
  end.

(** [await kernelClient.executeCode(source, onOutput, onStatus)] *)
Definition await_executeCode (src : string) (onOutput : IOutput -> Task K unit)
    (onStatus : KernelStatus -> Task K unit) : Task K ExecuteResult :=
  kc <- read_client ;;
  match kc with
  | None => settle (Throw null_client)
  | Some k =>
      let run := (executeCode k src).1 in
      log (executeCode_call src) ;;
      set_client (executeCode k src).2 ;;
      for_of (events run) (deliver onOutput onStatus) ;;
      settle (settled run)
  end.

(** [cells.find((c) => c.id === cellId)] *)
Definition find_cell (cells : list NotebookCell) (cellId : string) : option NotebookCell :=
  snd <$> list_find (fun c => id c = cellId) cells.

(** [!kernelClient || !kernelClient.isReady()] *)
Definition not_ready (kc : option K) : bool :=
  match kc with
  | None => true
  | Some k => negb (isReady k)
  end.

(** [executeCell], lines 73-121.  [cells] is the array captured by the
    closure when the component rendered; the setters act on the store. *)
Definition executeCell (cells : list NotebookCell) (cellId : string) : Task K unit :=
  kc <- read_client ;;
  if not_ready kc then
    log (toast_error "Kernel is not ready")
  else
    match find_cell cells cellId with
    | None => ret tt
    | Some cell =>
        if negb (bool_decide (type cell = code)) then ret tt
        else
          try_catch
            (updateCellStatus cellId running ;;
             setKernelStatus busy ;;
             updateCellOutputs cellId [] ;;
             result <- await_executeCode (source cell)
               (fun output =>
                  updateCellOutputs cellId
                    (from_option outputs [] (find_cell cells cellId) ++ [output]))
               (fun status => setKernelStatus status) ;;
             match result_executionCount result with
             | Some n => updateCellExecutionCount cellId n
             | None => ret tt
             end ;;
             updateCellOutputs cellId (result_outputs result) ;;
             let hasError := existsb is_error (result_outputs result) in
             updateCellStatus cellId (if hasError then error else completed) ;;
             setKernelStatus idle)
            (fun e =>
               log (console_error "Cell execution error:" e) ;;
               updateCellStatus cellId error ;;
               setKernelStatus idle ;;
               log (toast_error "Cell execution failed"))
    end.

(** [runAllCells], lines 124-131. *)
Definition runAllCells (cells : list NotebookCell) : Task K unit :=
  for_of cells (fun cell =>
    if bool_decide (type cell = code) then executeCell cells (id cell) else ret tt) ;;
  log (toast_success "All cells executed").

(** [restartKernel], lines 134-148. *)
Definition restartKernel : Task K unit :=
  kc <- read_client ;;
  match kc with
  | None => ret tt
  | Some _ =>
      try_catch
        (setKernelStatus restarting ;;
         await_method restart_call restart ;;
         setKernelStatus idle ;;
         clearAllOutputs ;;
         log (toast_success "Kernel restarted successfully"))
        (fun e =>
           log (console_error "Failed to restart kernel:" e) ;;
           log (toast_error "Failed to restart kernel") ;;
           setKernelStatus idle)
  end.

End NotebookInterface.

(** ** exportNotebook: the document handed to [JSON.stringify] *)

Module NotebookExport.

(** [s.split('\n')]: the pieces between the newlines, in order; one more
    piece than there are newlines, so the empty string gives [[""]]. *)
Fixpoint split_newline (s : string) : list string :=
  match s with
  | EmptyString => [""]
  | String c rest =>
      if Ascii.eqb c "010"%char then "" :: split_newline rest
      else match split_newline rest with
           | line :: lines => String c line :: lines
           | [] => [String c ""]
           end
  end.

(** [lines.join('\n')], the inverse direction. *)
Fixpoint join_newline (lines : list string) : string :=
  match lines with
  | [] => ""
  | [line] => line
  | line :: rest => line +:+ String "010"%char (join_newline rest)
  end.

Record ExportedCell : Type := mkExported {
  cell_type : CellType;
  exported_source : list string;
  exported_outputs : list IOutput;
  execution_count : option Z;
  exported_metadata : Metadata;
}.

Record Kernelspec : Type := mkKernelspec {
  display_name : string;
  language : string;
  kernelspec_name : string;
}.

Record LanguageInfo : Type := mkLanguageInfo {
  language_name : string;
  version : string;
}.

Record NotebookMetadata : Type := mkNotebookMetadata {
  kernelspec : Kernelspec;
  language_info : LanguageInfo;
}.

Record NotebookDocument : Type := mkDocument {
  document_cells : list ExportedCell;
  document_metadata : NotebookMetadata;
  nbformat : Z;
  nbformat_minor : Z;
}.

(** The arrow function mapped over [cells], lines 167-173;
    [cell.metadata || {}] is the empty object when the field is unset. *)
Definition exportCell (cell : NotebookCell) : ExportedCell :=
  {| cell_type := type cell;
     exported_source := split_newline (source cell);
     exported_outputs := outputs cell;
     execution_count := executionCount cell;
     exported_metadata := default [] (metadata cell) |}.

(** The object literal [notebook] of [exportNotebook], lines 166-187; its
    serialization and download (lines 189-196) are left out. *)
Definition exportNotebook (cells : list NotebookCell) : NotebookDocument :=
  {| document_cells := exportCell <$> cells;
     document_metadata :=
       {| kernelspec :=
            {| display_name := "Python 3";
               language := "python";
               kernelspec_name := "python3" |};
          language_info := {| language_name := "python"; version := "3.11.0" |} |};
     nbformat := 4;
     nbformat_minor := 5 |}.

(** A newline occurs in no line. *)
Fixpoint newline_free (s : string) : Prop :=
  match s with
  | EmptyString => True
  | String c rest => c <> "010"%char /\ newline_free rest
  end.

(** What one entry of the exported document says about its cell. *)
Definition exports (cell : NotebookCell) (e : ExportedCell) : Prop :=
  cell_type e = type cell
  /\ exported_source e = split_newline (source cell)
  /\ join_newline (exported_source e) = source cell
  /\ Forall newline_free (exported_source e)
  /\ exported_outputs e = outputs cell
  /\ execution_count e = executionCount cell
  /\ exported_metadata e = default [] (metadata cell).

End NotebookExport.

(** ** cell-output.tsx *)

Module CellOutput.

(** The element a renderer returns, named after the component it mounts. *)
Inductive Rendered : Type :=
  | ImageOutput (data : JsValue) (mimeType : string)
  | SvgOutput (data : JsValue)
  | HtmlOutput (data : JsValue)
  | JsonOutput (data : JsValue)
  | PlainTextOutput (data : JsValue)
  | NoRenderableOutput
  | StreamOutput (name : string) (text : JsValue)
  | ErrorOutput (ename evalue : string) (traceback : list string)
  | UnknownOutputType (outputType : string).

(** Priority order for rendering different MIME types, lines 79-86. *)
Definition mimeTypes : list string :=
  ["image/png"; "image/jpeg"; "image/svg+xml"; "text/html"; "application/json";
   "text/plain"].

(** The [switch (mimeType)] of lines 90-106; [None] when no case returns. *)
Definition render_as (mimeType : string) (v : JsValue) : option Rendered :=
  if bool_decide (mimeType = "image/png") || bool_decide (mimeType = "image/jpeg")
  then Some (ImageOutput v mimeType)
  else if bool_decide (mimeType = "image/svg+xml") then Some (SvgOutput v)
  else if bool_decide (mimeType = "text/html") then Some (HtmlOutput v)
  else if bool_decide (mimeType = "application/json") then Some (JsonOutput v)
  else if bool_decide (mimeType = "text/plain") then Some (PlainTextOutput v)
  else None.

(** [if (data[mimeType])]: the payload when the key is there and its value is
    truthy. *)
Definition truthy_payload (data : gmap string JsValue) (mimeType : string)
    : option JsValue :=
  match data !! mimeType with
  | Some v => if truthy v then Some v else None
  | None => None
  end.

(** The [for] loop of lines 88-108 over a list of candidate types. *)
Fixpoint first_renderable (data : gmap string JsValue) (candidates : list string)
    : Rendered :=
  match candidates with
  | [] => NoRenderableOutput
  | mimeType :: rest =>
      match truthy_payload data mimeType with
      | Some v =>
          match render_as mimeType v with
          | Some r => r
          | None => first_renderable data rest
          end
      | None => first_renderable data rest
      end
  end.

(** [DisplayDataOutput], lines 75-111. *)
Definition DisplayDataOutput (data : gmap string JsValue) : Rendered :=
  first_renderable data mimeTypes.

(** [OutputRenderer], lines 37-54. *)
Definition OutputRenderer (output : IOutput) : Rendered :=
  match output with
  | IStream name text => StreamOutput name text
  | IExecuteResult data _ => DisplayDataOutput data
  | IDisplayData data => DisplayDataOutput data
  | IError ename evalue traceback => ErrorOutput ename evalue traceback
  | IUnrecognized tag => UnknownOutputType tag
  end.

End CellOutput.

(** ** A scripted kernel client

    A test double for the interface: it replays a list of runs, one per call
    of [executeCode], and answers [restart] and [interrupt] as told. *)

Module Scripted.

Record Client : Type := mkClient {
  ready : bool;
  script : list Run;
  restart_reply : Completion unit;
  interrupt_reply : Completion unit;
}.

Definition empty_run : Run := mkRun [] (Normal (mkResult None [])).

#[global] Instance scripted_client : JupyterKernelClient Client := {|
  isReady k := ready k;
  executeCode k _ :=
    match script k with
    | [] => (empty_run, k)
    | r :: rest => (r, mkClient (ready k) rest (restart_reply k) (interrupt_reply k))
    end;
  restart k := (restart_reply k, k);
  interrupt k := (interrupt_reply k, k);
|}.

Definition client (rdy : bool) (runs : list Run) : Client :=
  mkClient rdy runs (Normal tt) (Normal tt).

Definition world (cs : list NotebookCell) (k : option Client) : World Client :=
  mkWorld (mkState cs None idle) k [].

(** Every scripted client that is ready stays ready. *)
Definition scripted_ready (k : Client) : Prop := ready k = true.

End Scripted.

(** ** Vocabulary for the statements *)

Section Vocabulary.
Context {K : Type} `{!JupyterKernelClient K}.

(** The world a task leaves behind. *)
Definition exec {A} (m : Task K A) (w : World K) : World K := (m w).2.

(** A task that never completes abruptly. *)
Definition total (m : Task K unit) : Prop := forall w, (m w).1 = Normal tt.

(** The three phases of [executeCell] once its guards have passed: what
    runs before the promise settles, ... *)
Definition pending (cells : list NotebookCell) (cellId src : string) (k : K)
    : Task K unit :=
  updateCellStatus cellId running ;;
  setKernelStatus busy ;;
  updateCellOutputs cellId [] ;;
  log (executeCode_call src) ;;
  set_client (executeCode k src).2 ;;
  for_of (events (executeCode k src).1)
    (deliver
       (fun output =>
          updateCellOutputs cellId
            (from_option outputs [] (find_cell cells cellId) ++ [output]))
       (fun status => setKernelStatus status)).

(** ... the rest of the [try] block when it resolves, ... *)
Definition commit (cellId : string) (result : ExecuteResult) : Task K unit :=
  match result_executionCount result with
  | Some n => updateCellExecutionCount cellId n
  | None => ret tt
  end ;;
  updateCellOutputs cellId (result_outputs result) ;;
  updateCellStatus cellId
    (if existsb is_error (result_outputs result) then error else completed) ;;
  setKernelStatus idle.

(** ... and the [catch] block when it rejects. *)
Definition recover (cellId : string) (e : JsError) : Task K unit :=
  log (console_error "Cell execution error:" e) ;;
  updateCellStatus cellId error ;;
  setKernelStatus idle ;;
  log (toast_error "Cell execution failed").

(** A cell status that ends an execution. *)
Definition terminal (st : CellStatus) : bool :=
  match st with
  | completed | error => true
  | cell_idle | running => false
  end.

(** The calls that matter for the order of a batch: a submission to the
    kernel, and a cell reaching a terminal status. *)
Inductive Milestone : Type :=
  | Submitted (src : string)
  | Terminated (cellId : string) (st : CellStatus).

Definition milestone (c : Call) : option Milestone :=
  match c with
  | executeCode_call src => Some (Submitted src)
  | store_call (UpdateCellStatus cellId st) =>
      if terminal st then Some (Terminated cellId st) else None
  | _ => None
  end.

Definition milestones (l : list Call) : list Milestone := omap milestone l.

(** The cells of the store with a given id. *)
Definition cell_at (w : World K) (cellId : string) (c : NotebookCell) : Prop :=
  c ∈ cells (store w) /\ id c = cellId.

(** The client is there and in a state from which it stays ready. *)
Definition stays_ready (Inv : K -> Prop) (w : World K) : Prop :=
  exists k, kernelClient w = Some k /\ Inv k.

(** The milestones one executed code cell contributes. *)
Definition cell_milestones (c : NotebookCell) (st : CellStatus) : list Milestone :=
  [Submitted (source c); Terminated (id c) st].

End Vocabulary.

(** ** Selection by presence

    The reading under which the renderer picks the first content type that is
    _present_ in the bundle, whatever its payload; to be compared with
    [DisplayDataOutput]. *)

Module PresenceReading.
Import CellOutput.

Fixpoint first_present (data : gmap string JsValue) (candidates : list string)
    : Rendered :=
  match candidates with
  | [] => NoRenderableOutput
  | mimeType :: rest =>
      match data !! mimeType with
      | Some v => default (first_present data rest) (render_as mimeType v)
      | None => first_present data rest
      end
  end.

Definition selected_by_presence (data : gmap string JsValue) : Rendered :=
  first_present data mimeTypes.

End PresenceReading.

(** ** A small notebook for the examples *)

Module Demo.
Import Scripted.

Definition out4 : IOutput := IStream "stdout" (JStr "4").
Definition out5 : IOutput := IStream "stdout" (JStr "5").
Definition boom : IOutput := IError "ValueError" "boom" ["Traceback"].

Definition cellA : NotebookCell :=
  mkCell "a" code "raise ValueError('boom')" [] None cell_idle None.
Definition note : NotebookCell :=
  mkCell "n" markdown "hello" [] None cell_idle None.
Definition cellB : NotebookCell :=
  mkCell "b" code "print(2+2)" [out5] (Some 7%Z) completed None.

Definition notebook : list NotebookCell := [cellA; note; cellB].

(** A run that raises in the kernel, and a run that prints. *)
Definition run_boom : Run :=
  mkRun [Status busy; Output boom; Status idle] (Normal (mkResult (Some 1%Z) [boom])).
Definition run_print : Run :=
  mkRun [Status busy; Output out4; Status idle] (Normal (mkResult (Some 2%Z) [out4])).

(** A run cut short: one output, then the transport fails and the promise
    rejects. *)
Definition connection_lost : JsError := mkError "ConnectionError" "socket closed".
Definition run_lost : Run :=
  mkRun [Status busy; Output out4] (Throw connection_lost).


(** An interrupted run that streamed nothing before it was rejected. *)
Definition run_interrupted : Run :=
  mkRun [InterruptClicked] (Throw (mkError "Error" "Canceled")).

Definition ready_world (runs : list Run) : World Client :=
  world notebook (Some (client true runs)).

Definition starting_world : World Client :=
  world notebook (Some (client false [run_print])).

Definition failing_restart : World Client :=
  world notebook
    (Some (mkClient true [] (Throw connection_lost) (Normal tt))).

(** A bundle as [display(HTML(''))] produces it: an empty HTML payload and
    the plain-text fallback. *)
Definition empty_html : gmap string JsValue :=
  <["text/html" := JStr ""]> (<["text/plain" := JStr "<HTML object>"]> ∅).

Definition plot : gmap string JsValue :=
  <["image/png" := JStr "iVBORw0KGgo="]> (<["text/plain" := JStr "<Figure>"]> ∅).

End Demo.

(** ** notebook-interface.tsx: connecting, and what is rendered *)

(** A value that reaches [catch (error)]: an instance of [Error], or any
    other thrown value. *)
Inductive Thrown : Type :=
  | ThrownError (e : JsError)
  | ThrownValue (v : JsValue).

(** A call that returns, or throws whatever it throws. *)
Inductive Attempt (A : Type) : Type :=
  | Returned (a : A)
  | Threw (thrown : Thrown).
Arguments Returned {A} a.
Arguments Threw {A} thrown.

(** [error instanceof Error ? error.message : 'Unknown error'], line 57. *)
Definition error_message (thrown : Thrown) : string :=
  match thrown with
  | ThrownError e => message e
  | ThrownValue _ => "Unknown error"
  end.

Section Connecting.
Context {K : Type} `{!JupyterKernelClient K}.

(** The two calls of [initKernel] into [lib/jupyter/kernel-client.ts]:
    [getKernelClient(jupyterUrl, jupyterToken)], which returns the client or
    throws, and [client.startSession(kernelName)], which resolves or rejects
    and leaves the client in a new state. *)
Variable getKernelClient : string -> option string -> Attempt K.
Variable startSession : K -> string -> Attempt unit * K.

(** The component's own React state next to the store: [isInitializing]
    starts as [true], [initError] as [null].  [console] keeps what
    [initKernel] passes to [console.error], the thrown value as it is. *)
Record Component : Type := mkComponent {
  world : World K;
  isInitializing : bool;
  initError : option string;
  console : list (string * Thrown);
}.

(** The [catch] block of [initKernel], lines 55-61, entered in world [w]. *)
Definition initKernel_catch (thrown : Thrown) (w : World K) (c : Component) : Component :=
  mkComponent
    (exec (setKernelStatus disconnected ;;
           log (toast_error "Failed to connect to Jupyter kernel")) w)
    false
    (Some (error_message thrown))
    (console c ++ [("Failed to initialize kernel:", thrown)]).

(** [initKernel], lines 40-62, for the props [jupyterUrl] and
    [jupyterToken].  Both calls into the client are inside the [try]: when
    [getKernelClient] throws, [setKernelClient] has not run. *)
Definition initKernel (jupyterUrl : string) (jupyterToken : option string)
    (c : Component) : Component :=
  let connecting_world := exec (setKernelStatus connecting) (world c) in
  match getKernelClient jupyterUrl jupyterToken with
  | Threw thrown => initKernel_catch thrown connecting_world c
  | Returned client =>
      let with_client := exec (set_client client) connecting_world in
      match startSession client "python3" with
      | (Returned _, k) =>
          mkComponent
            (exec (set_client k ;;
                   setKernelStatus idle ;;
                   log (toast_success "Jupyter kernel connected successfully"))
               with_client)
            false (initError c) (console c)
      | (Threw thrown, k) =>
          initKernel_catch thrown (exec (set_client k) with_client) c
      end
  end.

(** What [initKernel] catches, if anything. *)
Definition initKernel_thrown (jupyterUrl : string) (jupyterToken : option string)
    : option Thrown :=
  match getKernelClient jupyterUrl jupyterToken with
  | Threw thrown => Some thrown
  | Returned client =>
      match (startSession client "python3").1 with
      | Returned _ => None
      | Threw thrown => Some thrown
      end
  end.

(** The three returns of the component, lines 200-281. *)
Inductive View : Type :=
  | LoadingView
  | FailedToConnectView (msg : string)
  | NotebookView.

(** [if (isInitializing) ... if (initError) ...]: [null] and the empty string
    are falsy. *)
Definition render (c : Component) : View :=
  if isInitializing c then LoadingView
  else match initError c with
       | Some msg => if bool_decide (msg = "") then NotebookView else FailedToConnectView msg
       | None => NotebookView
       end.

End Connecting.

(** ** notebook-toolbar.tsx *)

Module Toolbar.

Definition isKernelBusy (kernelStatus : KernelStatus) : bool :=
  bool_decide (kernelStatus = busy) || bool_decide (kernelStatus = restarting).

Definition isKernelReady (kernelStatus : KernelStatus) : bool :=
  bool_decide (kernelStatus = connected) || bool_decide (kernelStatus = idle)
  || bool_decide (kernelStatus = busy).

(** The text of [getKernelStatusDisplay]. *)
Definition getKernelStatusDisplay (kernelStatus : KernelStatus) : string :=
  match kernelStatus with
  | disconnected => "Disconnected"
  | connecting => "Connecting..."
  | busy => "Busy"
  | idle | connected => "Ready"
  | restarting => "Restarting..."
  end.

(** The [disabled] attributes of the Run All, Interrupt and Restart buttons. *)
Definition runAllDisabled (kernelStatus : KernelStatus) : bool :=
  negb (isKernelReady kernelStatus).
Definition interruptDisabled (kernelStatus : KernelStatus) : bool :=
  negb (isKernelBusy kernelStatus).
Definition restartDisabled (kernelStatus : KernelStatus) : bool :=
  negb (isKernelReady kernelStatus).

End Toolbar.

(** ** notebook-cell.tsx *)

Module CellView.
Import NotebookExport.

(** [cell.source.split('\n').length] *)
Definition lineCount (cell : NotebookCell) : Z :=
  Z.of_nat (length (split_newline (source cell))).

(** [Math.max(80, Math.min(lineCount * 19 + 40, 500))] *)
Definition editorHeight (cell : NotebookCell) : Z :=
  Z.max 80 (Z.min (lineCount cell * 19 + 40) 500).

(** [rows={Math.max(3, lineCount)}] of the markdown text area. *)
Definition textareaRows (cell : NotebookCell) : Z := Z.max 3 (lineCount cell).

Inductive StatusIcon : Type := Loader2 | Square.

(** [getStatusIcon], lines 72-83. *)
Definition getStatusIcon (cell : NotebookCell) : option StatusIcon :=
  match status cell with
  | running => Some Loader2
  | completed => None
  | error => Some Square
  | cell_idle => None
  end.

(** The gutter, lines 161-171: for a code cell the status icon, or else the
    execution count between brackets (blank brackets for [null]); nothing for
    a markdown cell. *)
Inductive Gutter : Type :=
  | Icon (icon : StatusIcon)
  | ExecutionCount (n : option Z)
  | NoGutter.

Definition gutter (cell : NotebookCell) : Gutter :=
  match type cell with
  | code =>
      match getStatusIcon cell with
      | Some icon => Icon icon
      | None => ExecutionCount (executionCount cell)
      end
  | markdown => NoGutter
  end.

(** [disabled={cell.status === 'running'}] of the run button. *)
Definition runDisabled (cell : NotebookCell) : bool :=
  bool_decide (status cell = running).

End CellView.

(** ** Further vocabulary *)

(** A cell seen from outside an execution of [cellId]: hidden when it has
    that id, itself otherwise. *)
Definition others (cellId : string) (c : NotebookCell) : option NotebookCell :=
  if bool_decide (id c = cellId) then None else Some c.

(** A cell seen from outside a batch over the ids [cellIds]. *)
Definition outside (cellIds : list string) (c : NotebookCell) : option NotebookCell :=
  if bool_decide (id c ∈ cellIds) then None else Some c.

(** What no execution changes in a cell. *)
Definition fixed_part (c : NotebookCell)
    : string * CellType * string * option Metadata :=
  (id c, type c, source c, metadata c).

(** The number of newline characters of a string. *)
Fixpoint newlines (s : string) : nat :=
  match s with
  | EmptyString => 0
  | String c rest => (if Ascii.eqb c "010"%char then 1 else 0) + newlines rest
  end.

(** A view [f] of a cell that a store action cannot change. *)
Definition preserves {A} (f : NotebookCell -> A) (a : StoreAction) : Prop :=
  match a with
  | UpdateCellOutputs cellId outs => forall c, id c = cellId -> f (set_outputs outs c) = f c
  | UpdateCellStatus cellId st => forall c, id c = cellId -> f (set_status st c) = f c
  | UpdateCellExecutionCount cellId n =>
      forall c, id c = cellId -> f (set_executionCount (Some n) c) = f c
  | ClearAllOutputs => forall c, f (set_status cell_idle (set_outputs [] c)) = f c
  | SetKernelStatus _ => True
  end.

(** A view that does not see the status and the outputs of the cells [cellId]. *)
Definition blind_to_status_and_outputs {A} (f : NotebookCell -> A) (cellId : string) : Prop :=
  forall c, id c = cellId ->
    (forall st, f (set_status st c) = f c) /\ (forall outs, f (set_outputs outs c) = f c).

(** A view that does not see the execution count of the cells [cellId] either. *)
Definition blind_to_execution {A} (f : NotebookCell -> A) (cellId : string) : Prop :=
  blind_to_status_and_outputs f cellId
  /\ forall c, id c = cellId -> forall n, f (set_executionCount n c) = f c.

(** The execution count of a cell after an execution that settled with
    [settlement]. *)
Definition count_after (settlement : Completion ExecuteResult) (c : NotebookCell)
    : option Z :=
  match settlement with
  | Normal result =>
      match result_executionCount result with
      | Some n => Some n
      | None => executionCount c
      end
  | Throw _ => executionCount c
  end.

(** * Properties *)


(** ** Reasoning about tasks *)

Section TaskFacts.
Context {K : Type}.

Lemma total_run (m : Task K unit) w : total m -> m w = (Normal tt, exec m w).
Proof. intros Hm. unfold exec. specialize (Hm w). by destruct (m w) as [c w']; simplify_eq/=. Qed.

Lemma bind_total {B} (m : Task K unit) (f : unit -> Task K B) w :
  total m -> bind m f w = f tt (exec m w).
Proof. intros Hm. unfold bind. by rewrite (total_run m w Hm). Qed.

Lemma total_bind (m : Task K unit) (f : unit -> Task K unit) :
  total m -> total (f tt) -> total (bind m f).
Proof. intros Hm Hf w. rewrite bind_total; auto. Qed.

Lemma exec_bind (m : Task K unit) (f : unit -> Task K unit) w :
  total m -> exec (bind m f) w = exec (f tt) (exec m w).
Proof. intros Hm. unfold exec at 1. by rewrite bind_total. Qed.

Lemma total_ret : total (@ret K unit tt).
Proof. done. Qed.
Lemma total_log c : total (@log K c).
Proof. done. Qed.
Lemma total_dispatch a : total (@dispatch K a).
Proof. done. Qed.
Lemma total_set_client k : total (@set_client K k).
Proof. done. Qed.

Lemma total_try_catch (body : Task K unit) handler :
  (forall e, total (handler e)) -> total (try_catch body handler).
Proof.
  intros Hh w. unfold try_catch.
  destruct (body w) as [[[]|e] w'] eqn:Hb; simpl; [done|apply Hh].
Qed.

Lemma total_for_of {A} (xs : list A) (body : A -> Task K unit) :
  (forall x, total (body x)) -> total (for_of xs body).
Proof.
  intros Hb. induction xs as [|x xs IH]; simpl; [apply total_ret|].
  by apply total_bind.
Qed.

(** An invariant of the loop body is an invariant of the loop. *)
Lemma for_of_invariant {A} (I : World K -> Prop) (xs : list A) (body : A -> Task K unit) :
  (forall x, total (body x)) ->
  (forall x w, x ∈ xs -> I w -> I (exec (body x) w)) ->
  forall w, I w -> I (exec (for_of xs body) w).
Proof.
  intros Ht. induction xs as [|x xs IH]; intros Hb w Hw; [done|].
  simpl. rewrite exec_bind by done. apply IH.
  - intros y w' Hy. apply Hb. by right.
  - apply Hb; [by left|done].
Qed.

End TaskFacts.

Create HintDb tasks.
#[local] Hint Resolve total_ret total_log total_dispatch total_set_client : tasks.

(** ** Facts about the store *)

Section StoreFacts.


Lemma elem_of_update_cell cellId f cs c' :
  c' ∈ update_cell cellId f cs ->
  exists c, c ∈ cs /\
    ((id c = cellId /\ c' = f c) \/ (id c <> cellId /\ c' = c)).
Proof.
  unfold update_cell. intros (c & -> & Hc)%list_elem_of_fmap.
  exists c. split; [done|]. case_bool_decide; auto.
Qed.

Lemma update_cell_outputs cellId f cs :
  (forall c, outputs (f c) = outputs c) ->
  outputs <$> update_cell cellId f cs = outputs <$> cs.
Proof.
  intros Hf. unfold update_cell. rewrite <- list_fmap_compose.
  apply list_fmap_ext. intros i c _. simpl. by case_bool_decide.
Qed.


(** After a setter addressed to [cellId], what holds of the cells with
    that id, given that it held before or is established by the setter. *)
Lemma update_cell_at cellId f cs (P : NotebookCell -> Prop) c' :
  (forall c, id (f c) = id c) -> (forall c, P (f c)) ->
  c' ∈ update_cell cellId f cs -> id c' = cellId -> P c'.
Proof.
  intros Hid HP (c & _ & [[_ ->]|[Hne ->]])%elem_of_update_cell Hc'; [done|].
  by destruct Hne.
Qed.

End StoreFacts.

Section ExecuteCellFacts.
Context {K : Type} `{!JupyterKernelClient K}.

Lemma total_interruptKernel : total (interruptKernel (K:=K)).
Proof.
  intros [s [k|] l]; [|done].
  change (interruptKernel (mkWorld s (Some k) l)) with
    (try_catch
       (await_method interrupt_call interrupt ;;
        setKernelStatus idle ;; log (toast_success "Kernel interrupted"))
       (fun e => log (console_error "Failed to interrupt kernel:" e) ;;
                 log (toast_error "Failed to interrupt kernel"))
       (mkWorld s (Some k) l)).
  apply total_try_catch. intros e w. done.
Qed.

Lemma total_deliver onOutput onStatus ev :
  (forall o, total (onOutput o)) -> (forall st, total (onStatus st)) ->
  total (deliver (K:=K) onOutput onStatus ev).
Proof. intros Ho Hs. destruct ev; simpl; auto using total_interruptKernel. Qed.

Lemma total_pending snap cellId src k : total (pending snap cellId src k).
Proof.
  unfold pending. repeat (apply total_bind; [done|]).
  apply total_for_of. intros ev. apply total_deliver; intros; done.
Qed.

Lemma total_commit cellId result : total (commit (K:=K) cellId result).
Proof. unfold commit. intros w. by destruct (result_executionCount result). Qed.

Lemma total_recover cellId e : total (recover (K:=K) cellId e).
Proof. done. Qed.

Lemma await_executeCode_settles src onOutput onStatus k (w : World K) :
  (forall o, total (onOutput o)) -> (forall st, total (onStatus st)) ->
  kernelClient w = Some k ->
  await_executeCode src onOutput onStatus w =
    (settled (executeCode k src).1,
     exec (log (executeCode_call src) ;;
           set_client (executeCode k src).2 ;;
           for_of (events (executeCode k src).1) (deliver onOutput onStatus)) w).
Proof.
  intros Ho Hs Hk.
  assert (Hloop : total (for_of (events (executeCode k src).1)
                           (deliver onOutput onStatus))).
  { apply total_for_of. intros ev. by apply total_deliver. }
  unfold await_executeCode, read_client, bind at 1. rewrite Hk.
  rewrite !exec_bind by done.
  rewrite 3!bind_total by done. done.
Qed.

(** [executeCell] behind its guards: the pending phase, then [commit] or
    [recover] according to how the promise settles. *)
Lemma executeCell_phases snap cellId cell k w :
  kernelClient w = Some k -> isReady k = true ->
  find_cell snap cellId = Some cell -> type cell = code ->
  executeCell snap cellId w =
    (Normal tt,
     let w1 := exec (pending snap cellId (source cell) k) w in
     match settled (executeCode k (source cell)).1 with
     | Normal result => exec (commit cellId result) w1
     | Throw e => exec (recover cellId e) w1
     end).
Proof.
  intros Hk Hready Hfind Hcode.
  unfold executeCell, pending.
  set (onOutput := fun output : IOutput => updateCellOutputs (K:=K) cellId _).
  unfold read_client, bind at 1. rewrite Hk. simpl.
  rewrite Hready. simpl. rewrite Hfind, Hcode. simpl.
  unfold try_catch.
  assert (Hloop : forall src,
    total (for_of (events (executeCode k src).1)
      (deliver (K:=K) onOutput (fun status => setKernelStatus status)))).
  { intros src. apply total_for_of. intros ev. apply total_deliver; intros; done. }
  rewrite !exec_bind by done.
  rewrite 3!bind_total by done.
  unfold bind at 1.
  rewrite (await_executeCode_settles _ _ _ k); [|done|done|done].
  rewrite !exec_bind by done.
  destruct (settled _) as [result|e]; [|done].
  fold (commit (K:=K) cellId result).
  by rewrite (total_run _ _ (total_commit cellId result)).
Qed.

End ExecuteCellFacts.

(** ** The phases of an execution *)

Section PhaseFacts.
Context {K : Type} `{!JupyterKernelClient K}.
Implicit Types (w : World K) (k : K).

Lemma interruptKernel_run w :
  interruptKernel w =
    (Normal tt,
     match kernelClient w with
     | None => w
     | Some k =>
         match (interrupt k).1 with
         | Normal _ =>
             mkWorld (reduce (SetKernelStatus idle) (store w)) (Some (interrupt k).2)
               (calls w ++ [interrupt_call; store_call (SetKernelStatus idle);
                            toast_success "Kernel interrupted"])
         | Throw e =>
             mkWorld (store w) (Some (interrupt k).2)
               (calls w ++ [interrupt_call;
                            console_error "Failed to interrupt kernel:" e;
                            toast_error "Failed to interrupt kernel"])
         end
     end).
Proof.
  destruct w as [s [k|] l]; [|done].
  unfold interruptKernel, try_catch, await_method, setKernelStatus, read_client,
    bind, dispatch, log, set_client, settle. simpl.
  destruct (interrupt k) as [[[]|e] k']; simpl; by rewrite <- !app_assoc.
Qed.

Lemma restartKernel_run w :
  restartKernel w =
    (Normal tt,
     match kernelClient w with
     | None => w
     | Some k =>
         match (restart k).1 with
         | Normal _ =>
             mkWorld
               (reduce ClearAllOutputs
                  (reduce (SetKernelStatus idle)
                     (reduce (SetKernelStatus restarting) (store w))))
               (Some (restart k).2)
               (calls w ++ [store_call (SetKernelStatus restarting); restart_call;
                            store_call (SetKernelStatus idle);
                            store_call ClearAllOutputs;
                            toast_success "Kernel restarted successfully"])
         | Throw e =>
             mkWorld
               (reduce (SetKernelStatus idle)
                  (reduce (SetKernelStatus restarting) (store w)))
               (Some (restart k).2)
               (calls w ++ [store_call (SetKernelStatus restarting); restart_call;
                            console_error "Failed to restart kernel:" e;
                            toast_error "Failed to restart kernel";
                            store_call (SetKernelStatus idle)])
         end
     end).
Proof.
  destruct w as [s [k|] l]; [|done].
  unfold restartKernel, try_catch, await_method, setKernelStatus, clearAllOutputs,
    read_client, bind, dispatch, log, set_client, settle. simpl.
  destruct (restart k) as [[[]|e] k']; simpl; by rewrite <- !app_assoc.
Qed.

(** The two callbacks [executeCell] hands to [executeCode]. *)
Let onOutput (snap : list NotebookCell) (cellId : string) : IOutput -> Task K unit :=
  fun output =>
    updateCellOutputs cellId
      (from_option outputs [] (find_cell snap cellId) ++ [output]).
Let onStatus : KernelStatus -> Task K unit := fun status => setKernelStatus status.

Lemma total_callbacks snap cellId ev :
  total (deliver (onOutput snap cellId) onStatus ev).
Proof. apply total_deliver; intros; done. Qed.

Lemma pending_unfold snap cellId src k w :
  exec (pending snap cellId src k) w =
    exec (for_of (events (executeCode k src).1)
            (deliver (onOutput snap cellId) onStatus))
      (mkWorld
         (reduce (UpdateCellOutputs cellId [])
            (reduce (SetKernelStatus busy)
               (reduce (UpdateCellStatus cellId running) (store w))))
         (Some (executeCode k src).2)
         (calls w ++ [store_call (UpdateCellStatus cellId running);
                      store_call (SetKernelStatus busy);
                      store_call (UpdateCellOutputs cellId []);
                      executeCode_call src])).
Proof.
  unfold pending. rewrite !exec_bind by done.
  unfold exec at 2 3 4 5 6. simpl. by rewrite <- !app_assoc.
Qed.

(** An invariant of the three kinds of event holds when the promise
    settles, provided it holds once the code has been submitted. *)
Lemma pending_invariant (I : World K -> Prop) snap cellId src k w :
  (forall ev w', ev ∈ events (executeCode k src).1 -> I w' ->
     I (exec (deliver (onOutput snap cellId) onStatus ev) w')) ->
  I (mkWorld
       (reduce (UpdateCellOutputs cellId [])
          (reduce (SetKernelStatus busy)
             (reduce (UpdateCellStatus cellId running) (store w))))
       (Some (executeCode k src).2)
       (calls w ++ [store_call (UpdateCellStatus cellId running);
                    store_call (SetKernelStatus busy);
                    store_call (UpdateCellOutputs cellId []);
                    executeCode_call src])) ->
  I (exec (pending snap cellId src k) w).
Proof.
  intros Hstep Hinit. rewrite pending_unfold.
  apply for_of_invariant; [apply total_callbacks|done|done].
Qed.


Lemma pending_client (Inv : K -> Prop) snap cellId src k w :
  (forall k0, Inv k0 -> Inv (interrupt k0).2) ->
  Inv (executeCode k src).2 ->
  exists k', kernelClient (exec (pending snap cellId src k) w) = Some k' /\ Inv k'.
Proof.
  intros Hint Hexec.
  apply (pending_invariant (fun w' => exists k', kernelClient w' = Some k' /\ Inv k')).
  - intros ev w' _ (k' & Hk' & HI). destruct ev as [o|st|]; simpl; eauto.
    unfold exec. rewrite interruptKernel_run. simpl. rewrite Hk'.
    destruct (interrupt k').1; simpl; eauto.
  - simpl. eauto.
Qed.

Lemma pending_milestones snap cellId src k w :
  milestones (calls (exec (pending snap cellId src k) w)) =
    milestones (calls w) ++ [Submitted src].
Proof.
  apply (pending_invariant (fun w' =>
    milestones (calls w') = milestones (calls w) ++ [Submitted src])).
  - intros ev w' _ Hw'. unfold milestones in *.
    destruct ev as [o|st|]; simpl; rewrite ?omap_app; simpl.
    + by rewrite app_nil_r.
    + by rewrite app_nil_r.
    + unfold exec. rewrite interruptKernel_run. simpl.
      destruct (kernelClient w') as [k0|]; [|done].
      destruct (interrupt k0).1; simpl; rewrite omap_app; simpl;
        by rewrite app_nil_r.
  - unfold milestones. simpl. by rewrite omap_app.
Qed.

(** Whatever the store holds for the cell when the promise settles came
    from the kernel: from this run, or from the captured snapshot. *)
Lemma pending_outputs snap cellId src k w c' o :
  cell_at (exec (pending snap cellId src k) w) cellId c' ->
  o ∈ outputs c' ->
  o ∈ from_option outputs [] (find_cell snap cellId)
  \/ o ∈ emitted (events (executeCode k src).1).
Proof.
  intros [Hc' Hid]. revert c' Hc' Hid o.
  set (P := fun c : NotebookCell => forall o, o ∈ outputs c ->
    o ∈ from_option outputs [] (find_cell snap cellId)
    \/ o ∈ emitted (events (executeCode k src).1)).
  apply (pending_invariant (fun w' =>
    forall c', c' ∈ cells (store w') -> id c' = cellId -> P c')).
  - intros ev w' Hev Hw' c'. destruct ev as [o'|st|].
    + apply (update_cell_at _ _ _ P); [done|]. unfold P. simpl.
      intros _ o [Ho| ->%list_elem_of_singleton]%elem_of_app; [by left|right].
      unfold emitted. apply list_elem_of_omap. by exists (Output o').
    + apply Hw'.
    + cbn [deliver]. unfold exec. rewrite interruptKernel_run. simpl.
      destruct (kernelClient w') as [k0|]; [|by apply Hw'].
      destruct (interrupt k0).1; simpl; by apply Hw'.
  - intros c'. apply (update_cell_at _ _ _ P); [done|]. unfold P. simpl.
    by intros _ o ?%elem_of_nil.
Qed.

End PhaseFacts.

(** ** The guard of [executeCell] *)

Section Guard.
Context {K : Type} `{!JupyterKernelClient K}.

Lemma executeCell_guard snap cellId (w : World K) :
  not_ready (kernelClient w) = true ->
  executeCell snap cellId w = (log (toast_error "Kernel is not ready")) w.
Proof.
  intros Hnr. unfold executeCell, read_client, bind at 1. by rewrite Hnr.
Qed.

(** C6 (as the code has it): called while the kernel client is missing or
    not ready, [executeCell] shows the toast "Kernel is not ready" and
    returns normally; it throws nothing, and the store (every cell's status,
    outputs and execution count, and the kernel status) and the client are
    exactly as before. *)
Theorem executeCell_not_ready snap cellId (w : World K) :
  not_ready (kernelClient w) = true ->
  executeCell snap cellId w =
    (Normal tt,
     mkWorld (store w) (kernelClient w) (calls w ++ [toast_error "Kernel is not ready"])).
Proof.
  intros Hnr. unfold executeCell, read_client, bind at 1. by rewrite Hnr.
Qed.

End Guard.

Lemma executeCell_not_ready_witness :
  not_ready (kernelClient Demo.starting_world) = true /\
  executeCell Demo.notebook "b" Demo.starting_world =
    (Normal tt,
     mkWorld (store Demo.starting_world) (kernelClient Demo.starting_world)
       (calls Demo.starting_world ++ [toast_error "Kernel is not ready"])).
Proof.
  split; [reflexivity|].
  apply (executeCell_not_ready Demo.notebook "b" Demo.starting_world). reflexivity.
Defined.

(** C6 as stated fails: with a client that is not ready, the call does not
    fail with a [NotReadyError]; it completes normally. *)
Lemma executeCell_not_ready_throws_nothing :
  not_ready (kernelClient Demo.starting_world) = true /\
  ~ exists e, (executeCell Demo.notebook "b" Demo.starting_world).1 = Throw e
              /\ name e = "NotReadyError".
Proof.
  split; [reflexivity|]. intros (e & He & _). vm_compute in He. discriminate.
Qed.

(** ** Restarting the kernel *)

Section Restart.
Context {K : Type} `{!JupyterKernelClient K}.

(** C3 (as the code has it): when [restart()] resolves, [restartKernel]
    goes on to call [clearAllOutputs()], so afterwards every cell has no
    outputs and status idle, while the cells' ids, types and sources and
    their order are as before; when [restart()] rejects, the cells are
    left exactly as they were. *)
Theorem restartKernel_cells (w : World K) k :
  kernelClient w = Some k ->
  let w' := exec restartKernel w in
  match (restart k).1 with
  | Normal _ =>
      Forall2 (fun c c' => id c' = id c /\ type c' = type c /\ source c' = source c
                           /\ outputs c' = [] /\ status c' = cell_idle)
        (cells (store w)) (cells (store w'))
      /\ In (store_call ClearAllOutputs) (calls w')
  | Throw _ => cells (store w') = cells (store w)
  end.
Proof.
  intros Hk. unfold exec. rewrite restartKernel_run, Hk. simpl.
  destruct (restart k).1 as [[]|e]; simpl; [|done].
  split.
  - apply Forall2_fmap_r, Forall_Forall2_diag, Forall_forall. by intros c _.
  - apply in_or_app. right. simpl. tauto.
Qed.

(** C4 (as the code has it): when [restart()] rejects, the [catch] block
    logs the error, shows a toast and sets the kernel status to idle; the
    handler returns normally and the cells are untouched. *)
Theorem restartKernel_failure (w : World K) k e :
  kernelClient w = Some k -> (restart k).1 = Throw e ->
  (restartKernel w).1 = Normal tt
  /\ kernelStatus (store (exec restartKernel w)) = idle
  /\ cells (store (exec restartKernel w)) = cells (store w)
  /\ calls (exec restartKernel w) =
       calls w ++ [store_call (SetKernelStatus restarting); restart_call;
                   console_error "Failed to restart kernel:" e;
                   toast_error "Failed to restart kernel";
                   store_call (SetKernelStatus idle)].
Proof.
  intros Hk He. unfold exec. rewrite restartKernel_run, Hk, He. done.
Qed.

End Restart.

Lemma restartKernel_cells_witness :
  kernelClient (Demo.ready_world []) = Some (Scripted.client true []) /\
  Forall2 (fun c c' => id c' = id c /\ type c' = type c /\ source c' = source c
                       /\ outputs c' = [] /\ status c' = cell_idle)
    Demo.notebook (cells (store (exec restartKernel (Demo.ready_world [])))).
Proof.
  split; [reflexivity|].
  exact (proj1 (restartKernel_cells (Demo.ready_world []) (Scripted.client true [])
                  eq_refl)).
Defined.

(** C3 as stated fails: cell "b" completed with one output; after a restart
    that succeeds its outputs are gone. *)
Lemma restartKernel_clears_completed_outputs :
  outputs <$> cells (store (Demo.ready_world [])) = [[]; []; [Demo.out5]] /\
  outputs <$> cells (store (exec restartKernel (Demo.ready_world []))) = [[]; []; []] /\
  ~ (outputs <$> cells (store (exec restartKernel (Demo.ready_world [])))
     = outputs <$> cells (store (Demo.ready_world []))).
Proof. split; [|split]; [reflexivity|reflexivity|]. vm_compute. discriminate. Qed.

Lemma restartKernel_failure_witness :
  kernelClient Demo.failing_restart
    = Some (Scripted.mkClient true [] (Throw Demo.connection_lost) (Normal tt)) /\
  kernelStatus (store (exec restartKernel Demo.failing_restart)) = idle.
Proof.
  split; [reflexivity|].
  exact (proj1 (proj2 (restartKernel_failure Demo.failing_restart
    (Scripted.mkClient true [] (Throw Demo.connection_lost) (Normal tt))
    Demo.connection_lost eq_refl eq_refl))).
Defined.

(** C4 as stated fails: the restart rejects with a connection error and the
    kernel status ends up idle, not disconnected. *)
Lemma restartKernel_failure_not_disconnected :
  (restart (Scripted.mkClient true [] (Throw Demo.connection_lost) (Normal tt))).1
    = Throw Demo.connection_lost /\
  kernelStatus (store (exec restartKernel Demo.failing_restart)) <> disconnected.
Proof. split; [reflexivity|]. vm_compute. discriminate. Qed.

(** ** One execution *)

Section Execution.
Context {K : Type} `{!JupyterKernelClient K}.
Implicit Types (w : World K) (k : K).

Lemma commit_unfold cellId result w :
  exec (commit cellId result) w =
    let st := if existsb is_error (result_outputs result) then error else completed in
    let counted :=
      match result_executionCount result with
      | Some n => exec (updateCellExecutionCount cellId n) w
      | None => w
      end in
    mkWorld
      (reduce (SetKernelStatus idle)
         (reduce (UpdateCellStatus cellId st)
            (reduce (UpdateCellOutputs cellId (result_outputs result)) (store counted))))
      (kernelClient counted)
      (calls counted ++ [store_call (UpdateCellOutputs cellId (result_outputs result));
                         store_call (UpdateCellStatus cellId st);
                         store_call (SetKernelStatus idle)]).
Proof.
  unfold commit, exec, updateCellExecutionCount, updateCellOutputs, updateCellStatus,
    setKernelStatus, bind, dispatch, ret.
  destruct (result_executionCount result); simpl; by rewrite <- !app_assoc.
Qed.

Lemma recover_unfold cellId e w :
  exec (recover cellId e) w =
    mkWorld
      (reduce (SetKernelStatus idle) (reduce (UpdateCellStatus cellId error) (store w)))
      (kernelClient w)
      (calls w ++ [console_error "Cell execution error:" e;
                   store_call (UpdateCellStatus cellId error);
                   store_call (SetKernelStatus idle);
                   toast_error "Cell execution failed"]).
Proof. unfold recover, exec. simpl. by rewrite <- !app_assoc. Qed.

(** What [commit] leaves in the cells it addresses. *)
Lemma commit_cell cellId result w c' :
  cell_at (exec (commit cellId result) w) cellId c' ->
  outputs c' = result_outputs result
  /\ status c' = if existsb is_error (result_outputs result) then error else completed.
Proof.
  rewrite commit_unfold. intros [Hc' Hid]. revert Hc'.
  cbn [store reduce with_cells cells].
  intros (c1 & Hc1 & [[Hid1 ->]|[Hne ->]])%elem_of_update_cell; [|done].
  apply elem_of_update_cell in Hc1 as (c0 & _ & [[_ ->]|[Hne ->]]); done.
Qed.

Lemma recover_cell cellId e w c' :
  cell_at (exec (recover cellId e) w) cellId c' -> status c' = error.
Proof.
  rewrite recover_unfold. intros [Hc' Hid]. revert Hc'.
  cbn [store reduce with_cells cells].
  by intros (c1 & Hc1 & [[Hid1 ->]|[Hne ->]])%elem_of_update_cell.
Qed.

Lemma recover_outputs cellId e w :
  outputs <$> cells (store (exec (recover cellId e) w)) = outputs <$> cells (store w).
Proof. rewrite recover_unfold. by apply update_cell_outputs. Qed.

Lemma recover_cell_outputs cellId e w c' :
  cell_at (exec (recover cellId e) w) cellId c' ->
  exists c, cell_at w cellId c /\ outputs c' = outputs c.
Proof.
  rewrite recover_unfold. intros [Hc' Hid]. revert Hc'.
  cbn [store reduce with_cells cells].
  intros (c1 & Hc1 & [[Hid1 ->]|[Hne ->]])%elem_of_update_cell; [|done].
  by exists c1.
Qed.



(** [executeCell] never throws. *)
Lemma total_executeCell snap cellId : total (executeCell (K:=K) snap cellId).
Proof.
  intros w. destruct (not_ready (kernelClient w)) eqn:Hnr.
  { by rewrite executeCell_guard. }
  destruct (kernelClient w) as [k|] eqn:Hk; [|done].
  apply negb_false_iff in Hnr.
  destruct (find_cell snap cellId) as [cell|] eqn:Hfind.
  - destruct (decide (type cell = code)) as [Hcode|Hcode].
    + by rewrite (executeCell_phases snap cellId cell k).
    + unfold executeCell, read_client, bind at 1. rewrite Hk. simpl.
      rewrite Hnr. simpl. rewrite Hfind. by rewrite bool_decide_false.
  - unfold executeCell, read_client, bind at 1. rewrite Hk. simpl.
    rewrite Hnr. simpl. by rewrite Hfind.
Qed.



(** C7: a code cell is executed on a ready client and the promise
    resolves.  The cell's status is then [error] exactly when one of the
    outputs of the run has [output_type] "error", and [completed] exactly
    when none has; the outputs meant are those the client resolves with,
    which are also the cell's outputs, and for a client that resolves with
    what it streamed they are the outputs emitted. *)
Theorem executeCell_terminal_status snap cellId cell k w result :
  kernelClient w = Some k -> isReady k = true ->
  find_cell snap cellId = Some cell -> type cell = code ->
  settled (executeCode k (source cell)).1 = Normal result ->
  forall c', cell_at (exec (executeCell snap cellId) w) cellId c' ->
    let has_error (outs : list IOutput) := exists o, o ∈ outs /\ output_type o = "error" in
    outputs c' = result_outputs result
    /\ (status c' = error <-> has_error (result_outputs result))
    /\ (status c' = completed <-> ~ has_error (result_outputs result))
    /\ (faithful (executeCode k (source cell)).1 ->
          (status c' = error <-> has_error (emitted (events (executeCode k (source cell)).1)))).
Proof.
  intros Hk Hready Hfind Hcode Hres c' Hc' has_error. unfold exec in Hc'.
  rewrite (executeCell_phases snap cellId cell k) in Hc' by done.
  cbn [snd] in Hc'. rewrite Hres in Hc'.
  apply commit_cell in Hc' as [Hout Hst].
  assert (Hiff : existsb is_error (result_outputs result) = true
                 <-> has_error (result_outputs result)).
  { rewrite existsb_exists. unfold has_error, is_error.
    split; intros (o & Ho & Herr); exists o.
    - split; [by apply list_elem_of_In|]. by apply bool_decide_eq_true in Herr.
    - split; [by apply list_elem_of_In|]. by apply bool_decide_eq_true. }
  assert (Herror : status c' = error <-> has_error (result_outputs result)).
  { rewrite <- Hiff, Hst. by destruct (existsb _ _). }
  split; [done|]. split; [done|]. split.
  - rewrite <- Hiff, Hst. by destruct (existsb _ _).
  - intros Hfaithful. by rewrite <- (Hfaithful result Hres).
Qed.

End Execution.

Section Failure.
Context {K : Type} `{!JupyterKernelClient K}.
Implicit Types (w : World K) (k : K).

(** C5 (as the code has it): a code cell is executed on a ready client and
    the promise rejects, as it does on a transport failure.  The [catch]
    block logs the error to the console, sets the cell's status to [error]
    and the kernel status to idle, and shows a toast; [executeCell] then
    returns normally, so nothing is propagated to the caller.  The handler
    does not touch any cell's outputs: they are what the store held at the
    moment of the failure. *)
Theorem executeCell_transport_failure snap cellId cell k w e :
  kernelClient w = Some k -> isReady k = true ->
  find_cell snap cellId = Some cell -> type cell = code ->
  settled (executeCode k (source cell)).1 = Throw e ->
  let at_failure := exec (pending snap cellId (source cell) k) w in
  let w' := exec (executeCell snap cellId) w in
  (executeCell snap cellId w).1 = Normal tt
  /\ (forall c', cell_at w' cellId c' -> status c' = error)
  /\ kernelStatus (store w') = idle
  /\ outputs <$> cells (store w') = outputs <$> cells (store at_failure)
  /\ calls w' = calls at_failure ++
       [console_error "Cell execution error:" e;
        store_call (UpdateCellStatus cellId error);
        store_call (SetKernelStatus idle);
        toast_error "Cell execution failed"].
Proof.
  intros Hk Hready Hfind Hcode Hrej at_failure w'.
  split; [apply total_executeCell|].
  subst w'. unfold exec at 1 2 3 4.
  rewrite (executeCell_phases snap cellId cell k) by done.
  cbn [snd]. rewrite Hrej. fold at_failure.
  split; [intros c'; apply recover_cell|].
  split; [by rewrite recover_unfold|].
  split; [apply recover_outputs|by rewrite recover_unfold].
Qed.

(** C8 (as the code has it): a code cell is executed on a ready client and
    the interrupt button is clicked while the promise is pending.
    [interruptKernel] changes no cell.  What becomes of the cell is decided
    by how the promise settles: if it resolves, the cell gets the outputs
    the client resolved with and the status that follows from them; if it
    rejects, the cell's status becomes [error] and no output is added, every
    output of the cell being one the kernel emitted in this run or one of the
    captured snapshot.  In both cases [executeCell] returns normally. *)
Theorem executeCell_interrupted snap cellId cell k w :
  kernelClient w = Some k -> isReady k = true ->
  find_cell snap cellId = Some cell -> type cell = code ->
  InterruptClicked ∈ events (executeCode k (source cell)).1 ->
  (forall w0 : World K, cells (store (exec interruptKernel w0)) = cells (store w0))
  /\ (executeCell snap cellId w).1 = Normal tt
  /\ forall c', cell_at (exec (executeCell snap cellId) w) cellId c' ->
       match settled (executeCode k (source cell)).1 with
       | Normal result =>
           outputs c' = result_outputs result
           /\ status c' =
                if existsb is_error (result_outputs result) then error else completed
       | Throw _ =>
           status c' = error
           /\ forall o, o ∈ outputs c' ->
                o ∈ outputs cell \/ o ∈ emitted (events (executeCode k (source cell)).1)
       end.
Proof.
  intros Hk Hready Hfind Hcode _. split; [|split; [apply total_executeCell|]].
  - intros w0. unfold exec. rewrite interruptKernel_run. cbn [snd].
    destruct (kernelClient w0) as [k0|]; [|done]. by destruct (interrupt k0).1.
  - intros c'. unfold exec at 1.
    rewrite (executeCell_phases snap cellId cell k) by done. cbn [snd].
    destruct (settled _) as [result|e]; [apply commit_cell|].
    intros Hc'. split; [by apply recover_cell in Hc'|].
    apply recover_cell_outputs in Hc' as (c & Hc & ->). intros o Ho.
    destruct (pending_outputs _ _ _ _ _ _ _ Hc Ho) as [Hstale|Hemit]; [left|by right].
    by rewrite Hfind in Hstale.
Qed.

End Failure.

(** ** Run all *)

Lemma find_cell_cons c snap cellId :
  find_cell (c :: snap) cellId =
    if decide (id c = cellId) then Some c else find_cell snap cellId.
Proof.
  unfold find_cell. simpl. destruct (decide (id c = cellId)); [done|].
  by destruct (list_find _ snap) as [[i y]|].
Qed.

(** With distinct ids, looking a cell up by its id finds that cell. *)
Lemma find_cell_NoDup snap c :
  NoDup (id <$> snap) -> c ∈ snap -> find_cell snap (id c) = Some c.
Proof.
  induction snap as [|a snap IH]; intros Hnd Hc; [by apply elem_of_nil in Hc|].
  rewrite fmap_cons in Hnd. apply NoDup_cons in Hnd as [Ha Hnd].
  rewrite find_cell_cons. apply elem_of_cons in Hc as [->|Hc].
  - by rewrite decide_True.
  - rewrite decide_False; [by apply IH|].
    intros Heq. apply Ha. rewrite Heq. by apply list_elem_of_fmap_2.
Qed.

Section RunAll.
Context {K : Type} `{!JupyterKernelClient K}.
Implicit Types (w : World K) (k : K).

Section Ready.
Variable Inv : K -> Prop.
Hypothesis Inv_ready : forall k, Inv k -> isReady k = true.
Hypothesis Inv_executeCode : forall k src, Inv k -> Inv (executeCode k src).2.
Hypothesis Inv_interrupt : forall k, Inv k -> Inv (interrupt k).2.

Lemma executeCell_milestones snap cell w :
  stays_ready Inv w -> find_cell snap (id cell) = Some cell -> type cell = code ->
  exists st, terminal st = true
    /\ stays_ready Inv (exec (executeCell snap (id cell)) w)
    /\ milestones (calls (exec (executeCell snap (id cell)) w)) =
         milestones (calls w) ++ cell_milestones cell st.
Proof using Inv_ready Inv_executeCode Inv_interrupt.
  intros (k & Hk & HI) Hfind Hcode. unfold exec at 1 2.
  rewrite (executeCell_phases snap (id cell) cell k) by auto. cbn [snd].
  pose proof (pending_client Inv snap (id cell) (source cell) k w
                Inv_interrupt (Inv_executeCode _ _ HI)) as Hclient.
  pose proof (pending_milestones snap (id cell) (source cell) k w) as Hms.
  destruct (settled _) as [result|e].
  - exists (if existsb is_error (result_outputs result) then error else completed).
    split; [by destruct (existsb _ _)|].
    rewrite commit_unfold. cbn [kernelClient calls]. split.
    + by destruct (result_executionCount result).
    + unfold milestones in *. rewrite omap_app.
      assert (Hcount : omap milestone
                (calls match result_executionCount result with
                       | Some n => exec (updateCellExecutionCount (id cell) n)
                                     (exec (pending snap (id cell) (source cell) k) w)
                       | None => exec (pending snap (id cell) (source cell) k) w
                       end)
              = omap milestone (calls w) ++ [Submitted (source cell)]).
      { destruct (result_executionCount result); [|done].
        cbn [exec updateCellExecutionCount dispatch snd calls].
        rewrite omap_app, Hms. simpl. by rewrite app_nil_r. }
      rewrite Hcount, <- app_assoc. simpl.
      by destruct (existsb _ _).
  - exists error. split; [done|]. rewrite recover_unfold. cbn [kernelClient calls].
    split; [done|]. unfold milestones in *.
    by rewrite omap_app, Hms, <- app_assoc.
Qed.

Lemma loop_milestones snap xs w :
  (forall x, x ∈ xs -> find_cell snap (id x) = Some x) ->
  stays_ready Inv w ->
  let loop := for_of xs (fun cell =>
    if bool_decide (type cell = code) then executeCell snap (id cell) else ret tt) in
  exists sts,
    length sts = length (filter (fun c => type c = code) xs)
    /\ Forall (fun st => terminal st = true) sts
    /\ stays_ready Inv (exec loop w)
    /\ milestones (calls (exec loop w)) =
         milestones (calls w) ++
         concat (zip_with cell_milestones (filter (fun c => type c = code) xs) sts).
Proof using Inv_ready Inv_executeCode Inv_interrupt.
  revert w. induction xs as [|x xs IH]; intros w Hfind Hw loop.
  { exists []. subst loop. simpl. by rewrite app_nil_r. }
  subst loop. cbn [for_of]. rewrite exec_bind; last first.
  { case_bool_decide; [apply total_executeCell|apply total_ret]. }
  assert (Hxs : forall y, y ∈ xs -> find_cell snap (id y) = Some y).
  { intros y Hy. apply Hfind. by right. }
  destruct (decide (type x = code)) as [Hcode|Hcode].
  - rewrite bool_decide_true by done.
    destruct (executeCell_milestones snap x w Hw) as (st & Hst & Hw1 & Hms1);
      [apply Hfind; by left|done|].
    destruct (IH _ Hxs Hw1) as (sts & Hlen & Hterm & Hw2 & Hms2).
    exists (st :: sts). rewrite filter_cons_True by done.
    split; [simpl; by rewrite Hlen|]. split; [by constructor|].
    split; [done|]. cbn [zip_with concat].
    by rewrite Hms2, Hms1, <- app_assoc.
  - rewrite bool_decide_false by done.
    destruct (IH w Hxs Hw) as (sts & Hlen & Hterm & Hw2 & Hms2).
    exists sts. by rewrite filter_cons_False by done.
Qed.

End Ready.

(** C1: [runAllCells] on a notebook whose cells have distinct ids, with a
    kernel client that is and stays ready.  Restricted to submissions and
    terminal status updates, the calls it makes are, for each code cell in
    notebook order and for no other cell, the submission of that cell's
    source followed by that cell reaching a terminal status, and only then
    the next cell's submission.  The terminal statuses are unconstrained:
    a cell ending in [error] is followed by the next submission all the
    same.  The batch itself returns normally. *)
Theorem runAllCells_sequential (Inv : K -> Prop) snap w :
  (forall k, Inv k -> isReady k = true) ->
  (forall k src, Inv k -> Inv (executeCode k src).2) ->
  (forall k, Inv k -> Inv (interrupt k).2) ->
  stays_ready Inv w ->
  NoDup (id <$> snap) ->
  let code_cells := filter (fun c => type c = code) snap in
  (runAllCells snap w).1 = Normal tt
  /\ exists sts,
       length sts = length code_cells
       /\ Forall (fun st => terminal st = true) sts
       /\ milestones (calls (exec (runAllCells snap) w)) =
            milestones (calls w) ++ concat (zip_with cell_milestones code_cells sts).
Proof.
  intros Hready Hexec Hint Hw Hnd code_cells.
  set (body := fun cell : NotebookCell =>
    if bool_decide (type cell = code) then executeCell (K:=K) snap (id cell) else ret tt).
  assert (Hbody : forall c, total (body c)).
  { intros c. unfold body. case_bool_decide; [apply total_executeCell|apply total_ret]. }
  assert (Hloop : total (for_of snap body)) by by apply total_for_of.
  split.
  { unfold runAllCells. fold body. by rewrite bind_total. }
  destruct (loop_milestones Inv Hready Hexec Hint snap snap w)
    as (sts & Hlen & Hterm & _ & Hms); [|done|].
  { intros x Hx. by apply find_cell_NoDup. }
  exists sts. split; [done|]. split; [done|].
  unfold runAllCells. fold body. rewrite exec_bind by done.
  cbn [exec log snd calls]. unfold milestones in *. rewrite omap_app. simpl.
  by rewrite app_nil_r.
Qed.

End RunAll.

(** ** Export *)

Section ExportFacts.
Import NotebookExport.

Lemma split_newline_nonempty s : split_newline s <> [].
Proof.
  destruct s as [|c s]; simpl; [done|].
  destruct (Ascii.eqb c "010"); [done|]. by destruct (split_newline s).
Qed.

Lemma join_newline_cons line lines :
  lines <> [] ->
  join_newline (line :: lines) = line +:+ String "010" (join_newline lines).
Proof. by destruct lines. Qed.

(** Joining the lines with newlines gives the source back. *)
Lemma join_split_newline s : join_newline (split_newline s) = s.
Proof.
  induction s as [|c s IH]; [done|]. simpl.
  destruct (Ascii.eqb c "010") eqn:Hc.
  - apply Ascii.eqb_eq in Hc as ->.
    rewrite join_newline_cons by apply split_newline_nonempty. simpl. by rewrite IH.
  - pose proof (split_newline_nonempty s) as Hne.
    destruct (split_newline s) as [|line lines]; [done|].
    destruct lines as [|line' lines].
    + simpl in *. by rewrite IH.
    + rewrite join_newline_cons by done. rewrite join_newline_cons in IH by done.
      by rewrite <- IH.
Qed.

Lemma split_newline_lines s : Forall newline_free (split_newline s).
Proof.
  induction s as [|c s IH]; simpl; [by repeat constructor|].
  destruct (Ascii.eqb c "010") eqn:Hc; [by constructor|].
  apply Ascii.eqb_neq in Hc.
  destruct (split_newline s) as [|line lines]; [by repeat constructor|].
  apply Forall_cons in IH as [Hline Hlines]. by constructor.
Qed.

(** C9: the exported document has one entry per cell, in notebook order;
    the entry carries the cell's type, its source as the list of its lines
    in order, its outputs, its execution count and its metadata (the empty
    object when the cell has none); the document carries the format version
    4.5 and the descriptor of the Python 3 kernel. *)
Theorem exportNotebook_document (snap : list NotebookCell) :
  let doc := exportNotebook snap in
  Forall2 exports snap (document_cells doc)
  /\ nbformat doc = 4%Z /\ nbformat_minor doc = 5%Z
  /\ kernelspec (document_metadata doc) = mkKernelspec "Python 3" "python" "python3"
  /\ language_info (document_metadata doc) = mkLanguageInfo "python" "3.11.0".
Proof.
  intros doc. split; [|done].
  apply Forall2_fmap_r, Forall_Forall2_diag, Forall_forall. intros cell _.
  unfold exports, exportCell. simpl.
  repeat split; auto using join_split_newline, split_newline_lines.
Qed.

End ExportFacts.

(** ** The renderer of MIME bundles *)

Section Renderer.
Import CellOutput PresenceReading.

Lemma render_as_known mimeType v :
  mimeType ∈ mimeTypes -> is_Some (render_as mimeType v).
Proof.
  unfold mimeTypes. rewrite !elem_of_cons, elem_of_nil.
  intros [->|[->|[->|[->|[->|[->|[]]]]]]]; by eexists.
Qed.

Lemma first_renderable_skip data candidates :
  (forall m, m ∈ candidates -> truthy_payload data m = None) ->
  first_renderable data candidates = NoRenderableOutput.
Proof.
  induction candidates as [|m rest IH]; intros Hnone; [done|]. simpl.
  rewrite Hnone by by left. apply IH. intros m' Hm'. apply Hnone. by right.
Qed.

Lemma first_renderable_pick data candidates i m v :
  candidates !! i = Some m -> truthy_payload data m = Some v ->
  (forall j m', candidates !! j = Some m' -> j < i -> truthy_payload data m' = None) ->
  first_renderable data candidates =
    default (first_renderable data (drop (S i) candidates)) (render_as m v).
Proof.
  revert i. induction candidates as [|m0 rest IH]; intros i Hi Hv Hbefore; [done|].
  destruct i as [|i]; simpl in *.
  - simplify_eq. rewrite Hv. by destruct (render_as m v).
  - rewrite (Hbefore 0 m0) by (done || lia).
    apply IH; [done..|]. intros j m' Hj Hlt. apply (Hbefore (S j)); [done|lia].
Qed.

(** C10 (as the code has it): of the six types in the priority order
    image/png, image/jpeg, image/svg+xml, text/html, application/json,
    text/plain, [DisplayDataOutput] renders the first whose payload is
    truthy (present, and not an empty string, [0], [false] or [null]), with
    the component of that type and that payload, and nothing else; when no
    listed type has a truthy payload it renders the "No renderable output"
    placeholder.  When every payload present is truthy this is the first
    type present. *)
Theorem DisplayDataOutput_first_truthy (data : gmap string JsValue) :
  (forall i m v,
     mimeTypes !! i = Some m -> truthy_payload data m = Some v ->
     (forall j m', mimeTypes !! j = Some m' -> j < i -> truthy_payload data m' = None) ->
     render_as m v = Some (DisplayDataOutput data))
  /\ ((forall m, m ∈ mimeTypes -> truthy_payload data m = None) ->
      DisplayDataOutput data = NoRenderableOutput)
  /\ ((forall m v, data !! m = Some v -> truthy v = true) ->
      DisplayDataOutput data = selected_by_presence data).
Proof.
  split; [|split].
  - intros i m v Hi Hv Hbefore. unfold DisplayDataOutput.
    rewrite (first_renderable_pick data mimeTypes i m v) by done.
    destruct (render_as_known m v) as [r ->]; [|done].
    by eapply list_elem_of_lookup_2.
  - apply first_renderable_skip.
  - intros Htruthy. unfold DisplayDataOutput, selected_by_presence.
    induction mimeTypes as [|m rest IH]; [done|]. simpl.
    unfold truthy_payload. destruct (data !! m) as [v|] eqn:Hm; [|done].
    rewrite (Htruthy m v Hm). destruct (render_as m v); [done|]. apply IH.
Qed.

(** The component chosen for each listed type. *)
Lemma render_as_table v :
  render_as "image/png" v = Some (ImageOutput v "image/png")
  /\ render_as "image/jpeg" v = Some (ImageOutput v "image/jpeg")
  /\ render_as "image/svg+xml" v = Some (SvgOutput v)
  /\ render_as "text/html" v = Some (HtmlOutput v)
  /\ render_as "application/json" v = Some (JsonOutput v)
  /\ render_as "text/plain" v = Some (PlainTextOutput v).
Proof. done. Qed.

End Renderer.

Lemma DisplayDataOutput_first_truthy_witness :
  CellOutput.mimeTypes !! 0 = Some "image/png"
  /\ CellOutput.truthy_payload Demo.plot "image/png" = Some (JStr "iVBORw0KGgo=")
  /\ CellOutput.render_as "image/png" (JStr "iVBORw0KGgo=")
     = Some (CellOutput.DisplayDataOutput Demo.plot).
Proof.
  split; [reflexivity|]. split; [reflexivity|].
  apply (proj1 (DisplayDataOutput_first_truthy Demo.plot) 0 "image/png");
    [reflexivity|reflexivity|]. intros j m' _ Hj. lia.
Defined.

(** C10 as stated fails: the bundle holds text/html (an empty string) and
    text/plain; text/html comes first in the priority order and is present,
    yet the plain text is what is rendered. *)
Lemma DisplayDataOutput_skips_empty_payload :
  Demo.empty_html !! "text/html" = Some (JStr "")
  /\ PresenceReading.selected_by_presence Demo.empty_html = CellOutput.HtmlOutput (JStr "")
  /\ CellOutput.DisplayDataOutput Demo.empty_html
     = CellOutput.PlainTextOutput (JStr "<HTML object>")
  /\ CellOutput.DisplayDataOutput Demo.empty_html
     <> PresenceReading.selected_by_presence Demo.empty_html.
Proof. repeat split; try reflexivity. vm_compute. discriminate. Qed.

(** ** The properties on the example notebook *)

Section Examples.
Import Scripted Demo.

Lemma scripted_ready_executeCode k src :
  scripted_ready k -> scripted_ready (executeCode k src).2.
Proof. unfold scripted_ready. simpl. by destruct (script k). Qed.

(** While the stream is pending, each output replaces the cell's outputs by
    those of the captured snapshot followed by that one output: with [out5]
    in the snapshot of cell "b" and [out4], [boom] streamed, the store holds
    [out5; boom] when the promise settles. *)
Example pending_outputs_of_two_events :
  let k := mkClient true
             [mkRun [Output out4; Output boom] (Throw connection_lost)]
             (Normal tt) (Normal tt) in
  outputs <$> cells (store (exec (pending notebook "b" (source cellB) k)
                              (world notebook (Some k))))
  = [[]; []; [out5; boom]].
Proof. reflexivity. Qed.

(** Run all on the example: the first code cell raises, the second is
    submitted all the same, and the note is never submitted. *)
Example runAllCells_continues_after_error :
  milestones (calls (exec (runAllCells notebook) (ready_world [run_boom; run_print])))
  = [Submitted "raise ValueError('boom')"; Terminated "a" error;
     Submitted "print(2+2)"; Terminated "b" completed].
Proof. reflexivity. Qed.

End Examples.

Lemma runAllCells_sequential_witness :
  let w := Demo.ready_world [Demo.run_boom; Demo.run_print] in
  stays_ready Scripted.scripted_ready w
  /\ NoDup (id <$> Demo.notebook)
  /\ (runAllCells Demo.notebook w).1 = Normal tt
  /\ exists sts,
       length sts = length (filter (fun c => type c = code) Demo.notebook)
       /\ Forall (fun st => terminal st = true) sts
       /\ milestones (calls (exec (runAllCells Demo.notebook) w)) =
            milestones (calls w) ++
            concat (zip_with cell_milestones
                      (filter (fun c => type c = code) Demo.notebook) sts).
Proof.
  assert (Hw : stays_ready Scripted.scripted_ready
                 (Demo.ready_world [Demo.run_boom; Demo.run_print])).
  { eexists. split; reflexivity. }
  assert (Hnd : NoDup (id <$> Demo.notebook)).
  { apply (bool_decide_unpack _). vm_compute. exact I. }
  split; [exact Hw|]. split; [exact Hnd|].
  apply (runAllCells_sequential Scripted.scripted_ready Demo.notebook
           (Demo.ready_world [Demo.run_boom; Demo.run_print])).
  - intros k Hk. exact Hk.
  - intros k src. apply scripted_ready_executeCode.
  - intros k Hk. exact Hk.
  - exact Hw.
  - exact Hnd.
Defined.



Lemma executeCell_terminal_status_witness :
  let w := Demo.ready_world [Demo.run_boom] in
  let failed_a :=
    mkCell "a" code "raise ValueError('boom')" [Demo.boom] (Some 1%Z) error None in
  settled Demo.run_boom = Normal (mkResult (Some 1%Z) [Demo.boom])
  /\ cell_at (exec (executeCell Demo.notebook "a") w) "a" failed_a
  /\ (status failed_a = error <->
      exists o, o ∈ [Demo.boom] /\ output_type o = "error").
Proof.
  assert (Hcell : cell_at
            (exec (executeCell Demo.notebook "a") (Demo.ready_world [Demo.run_boom]))
            "a" (mkCell "a" code "raise ValueError('boom')" [Demo.boom] (Some 1%Z)
                   error None)).
  { split; [|reflexivity]. apply list_elem_of_In. vm_compute. tauto. }
  split; [reflexivity|]. split; [exact Hcell|].
  refine (proj1 (proj2 (executeCell_terminal_status Demo.notebook "a" Demo.cellA
           (Scripted.client true [Demo.run_boom]) (Demo.ready_world [Demo.run_boom])
           (mkResult (Some 1%Z) [Demo.boom])
           _ _ _ _ _ _ Hcell))); reflexivity.
Defined.

Lemma executeCell_transport_failure_witness :
  let w := Demo.ready_world [Demo.run_lost] in
  settled Demo.run_lost = Throw Demo.connection_lost
  /\ (executeCell Demo.notebook "b" w).1 = Normal tt
  /\ kernelStatus (store (exec (executeCell Demo.notebook "b") w)) = idle.
Proof.
  split; [reflexivity|].
  refine ((fun H => conj (proj1 H) (proj1 (proj2 (proj2 H))))
    (executeCell_transport_failure Demo.notebook "b" Demo.cellB
       (Scripted.client true [Demo.run_lost]) (Demo.ready_world [Demo.run_lost])
       Demo.connection_lost _ _ _ _ _)); reflexivity.
Defined.

(** C5 as stated fails: the transport fails during the stream of cell "b";
    the error is caught inside [executeCell], whose caller sees a normal
    return and no [ConnectionError]. *)
Lemma executeCell_transport_failure_not_propagated :
  settled (executeCode (Scripted.client true [Demo.run_lost]) (source Demo.cellB)).1
    = Throw Demo.connection_lost
  /\ name Demo.connection_lost = "ConnectionError"
  /\ ~ exists e, (executeCell Demo.notebook "b" (Demo.ready_world [Demo.run_lost])).1
                 = Throw e.
Proof.
  split; [reflexivity|]. split; [reflexivity|].
  intros (e & He). vm_compute in He. discriminate.
Qed.

Lemma executeCell_interrupted_witness :
  let w := Demo.ready_world [Demo.run_interrupted] in
  InterruptClicked ∈ events Demo.run_interrupted
  /\ (executeCell Demo.notebook "a" w).1 = Normal tt.
Proof.
  assert (Hclick : InterruptClicked ∈ events Demo.run_interrupted).
  { apply list_elem_of_In. simpl. tauto. }
  split; [exact Hclick|].
  refine (proj1 (proj2 (executeCell_interrupted Demo.notebook "a" Demo.cellA
    (Scripted.client true [Demo.run_interrupted]) (Demo.ready_world [Demo.run_interrupted])
    _ _ _ _ Hclick))); reflexivity.
Defined.

(** C8 as stated fails: cell "a" is interrupted and its promise rejects
    without a reply from the kernel; the cell ends in status [error] with no
    output at all, so no "interrupted" error output has been recorded. *)
Lemma executeCell_interrupted_records_no_error :
  let w' := exec (executeCell Demo.notebook "a") (Demo.ready_world [Demo.run_interrupted]) in
  InterruptClicked ∈ events Demo.run_interrupted
  /\ cells (store w') =
       [mkCell "a" code "raise ValueError('boom')" [] None error None;
        Demo.note; Demo.cellB]
  /\ ~ exists c' o, cell_at w' "a" c' /\ o ∈ outputs c' /\ output_type o = "error".
Proof.
  assert (Hcells :
    cells (store (exec (executeCell Demo.notebook "a")
                    (Demo.ready_world [Demo.run_interrupted]))) =
      [mkCell "a" code "raise ValueError('boom')" [] None error None;
       Demo.note; Demo.cellB]) by reflexivity.
  split; [apply list_elem_of_In; simpl; tauto|]. split; [exact Hcells|].
  intros (c' & o & [Hc' Hid] & Ho & _). rewrite Hcells in Hc'.
  rewrite !elem_of_cons, elem_of_nil in Hc'.
  destruct Hc' as [->|[->|[->|[]]]]; try discriminate Hid.
  by apply elem_of_nil in Ho.
Qed.

(** * Further properties *)

(** ** What an execution leaves alone *)

Section Views.
Context {K : Type} `{!JupyterKernelClient K}.
Implicit Types (w : World K) (k : K).

Lemma update_cell_view {A} (f : NotebookCell -> A) cellId g cs :
  (forall c, id c = cellId -> f (g c) = f c) ->
  f <$> update_cell cellId g cs = f <$> cs.
Proof.
  intros Hg. unfold update_cell. rewrite <- list_fmap_compose.
  apply list_fmap_ext. intros i c _. simpl. case_bool_decide; auto.
Qed.

Lemma reduce_view {A} (f : NotebookCell -> A) a s :
  preserves f a -> f <$> cells (reduce a s) = f <$> cells s.
Proof.
  destruct a; simpl; intros Hf; try by apply update_cell_view.
  - rewrite <- list_fmap_compose. apply list_fmap_ext. intros i c _. apply Hf.
  - done.
Qed.

Lemma fmap_eq_Forall2 {A B} (f : A -> B) (l l' : list A) :
  f <$> l' = f <$> l -> Forall2 (fun x y => f y = f x) l l'.
Proof.
  intros Heq. apply (Forall2_fmap f f (fun a b => b = a)). rewrite Heq.
  by apply Forall_Forall2_diag, Forall_forall.
Qed.

Lemma interruptKernel_view {A} (f : NotebookCell -> A) w :
  f <$> cells (store (exec interruptKernel w)) = f <$> cells (store w).
Proof.
  unfold exec. rewrite interruptKernel_run. cbn [snd].
  destruct (kernelClient w) as [k|]; [|done]. by destruct (interrupt k).1.
Qed.

Lemma pending_view {A} (f : NotebookCell -> A) snap cellId src k w :
  blind_to_status_and_outputs f cellId ->
  f <$> cells (store (exec (pending snap cellId src k) w)) = f <$> cells (store w).
Proof.
  intros Hf.
  apply (pending_invariant (fun w' => f <$> cells (store w') = f <$> cells (store w))).
  - intros ev w' _ <-. destruct ev as [o|st|].
    + apply (reduce_view f (UpdateCellOutputs cellId _)). intros c Hc. by apply Hf.
    + done.
    + apply interruptKernel_view.
  - cbn [store].
    rewrite (reduce_view f (UpdateCellOutputs cellId [])) by (intros c Hc; by apply Hf).
    rewrite (reduce_view f (SetKernelStatus busy)) by done.
    apply (reduce_view f (UpdateCellStatus cellId running)). intros c Hc. by apply Hf.
Qed.

Lemma recover_view {A} (f : NotebookCell -> A) cellId e w :
  blind_to_status_and_outputs f cellId ->
  f <$> cells (store (exec (recover cellId e) w)) = f <$> cells (store w).
Proof.
  intros Hf. rewrite recover_unfold. cbn [store].
  rewrite (reduce_view f (SetKernelStatus idle)) by done.
  apply (reduce_view f (UpdateCellStatus cellId error)). intros c Hc. by apply Hf.
Qed.

Lemma commit_view {A} (f : NotebookCell -> A) cellId result w :
  blind_to_execution f cellId ->
  f <$> cells (store (exec (commit cellId result) w)) = f <$> cells (store w).
Proof.
  intros [Hf Hcount]. rewrite commit_unfold. cbn [store].
  rewrite (reduce_view f (SetKernelStatus idle)) by done.
  rewrite (reduce_view f (UpdateCellStatus cellId _)) by (intros c Hc; by apply Hf).
  rewrite (reduce_view f (UpdateCellOutputs cellId _)) by (intros c Hc; by apply Hf).
  destruct (result_executionCount result) as [n|]; [|done].
  apply (reduce_view f (UpdateCellExecutionCount cellId n)). intros c Hc. by apply Hcount.
Qed.

(** The cases of [executeCell] in which nothing is submitted. *)
Lemma executeCell_cases snap cellId w :
  (exists k cell, kernelClient w = Some k /\ isReady k = true
                  /\ find_cell snap cellId = Some cell /\ type cell = code)
  \/ executeCell snap cellId w = (Normal tt, w)
  \/ executeCell snap cellId w = log (toast_error "Kernel is not ready") w.
Proof.
  destruct (not_ready (kernelClient w)) eqn:Hnr.
  { right. right. by apply executeCell_guard. }
  destruct (kernelClient w) as [k|] eqn:Hk; [|done].
  apply negb_false_iff in Hnr.
  destruct (find_cell snap cellId) as [cell|] eqn:Hfind.
  - destruct (decide (type cell = code)) as [Hcode|Hcode].
    + left. by exists k, cell.
    + right. left. unfold executeCell, read_client, bind at 1. rewrite Hk. simpl.
      rewrite Hnr. simpl. rewrite Hfind. by rewrite bool_decide_false.
  - right. left. unfold executeCell, read_client, bind at 1. rewrite Hk. simpl.
    rewrite Hnr. simpl. by rewrite Hfind.
Qed.

Lemma executeCell_view {A} (f : NotebookCell -> A) snap cellId w :
  blind_to_execution f cellId ->
  f <$> cells (store (exec (executeCell snap cellId) w)) = f <$> cells (store w).
Proof.
  intros Hf. unfold exec.
  destruct (executeCell_cases snap cellId w)
    as [(k & cell & Hk & Hready & Hfind & Hcode)|[->| ->]]; [|done..].
  rewrite (executeCell_phases snap cellId cell k) by done. cbn [snd].
  destruct (settled _).
  - rewrite commit_view by done. apply pending_view, Hf.
  - rewrite recover_view by apply Hf. apply pending_view, Hf.
Qed.

Lemma blind_others cellId : blind_to_execution (others cellId) cellId.
Proof.
  split; [intros c Hc; split; intros|intros c Hc n];
    unfold others; simpl; by rewrite !bool_decide_true.
Qed.

Lemma blind_fixed_part cellId : blind_to_execution fixed_part cellId.
Proof. split; [intros c Hc; split; intros|intros c Hc n]; done. Qed.

(** X1: with a ready client, [executeCell] on an id that is not in the
    captured snapshot, or that names a cell which is not a code cell, does
    nothing at all: no setter is called, nothing is submitted, no toast is
    shown, and it returns normally. *)
Theorem executeCell_nothing_to_run snap cellId w :
  not_ready (kernelClient w) = false ->
  (forall cell, find_cell snap cellId = Some cell -> type cell <> code) ->
  executeCell snap cellId w = (Normal tt, w).
Proof.
  intros Hnr Hnot.
  destruct (kernelClient w) as [k|] eqn:Hk; [|done].
  apply negb_false_iff in Hnr.
  unfold executeCell, read_client, bind at 1. rewrite Hk. simpl. rewrite Hnr. simpl.
  destruct (find_cell snap cellId) as [cell|] eqn:Hfind; [|done].
  by rewrite bool_decide_false by by apply Hnot.
Qed.

(** X2: whatever the client does, an execution of [cellId] keeps the cells
    of the store in place, never changes the id, type, source or metadata of
    any cell, and leaves every cell with another id exactly as it was. *)
Theorem executeCell_frame snap cellId w :
  Forall2 (fun c c' => fixed_part c' = fixed_part c /\ (id c <> cellId -> c' = c))
    (cells (store w)) (cells (store (exec (executeCell snap cellId) w))).
Proof.
  assert (Hblind : blind_to_execution
                     (fun c => (fixed_part c, others cellId c)) cellId).
  { split; [intros c Hc; split; intros|intros c Hc n];
      unfold others; simpl; by rewrite !bool_decide_true. }
  pose proof (fmap_eq_Forall2 _ _ _ (executeCell_view _ snap cellId w Hblind)) as Hall.
  eapply Forall2_impl; [exact Hall|]. cbv beta.
  intros c c' Heq. apply pair_equal_spec in Heq as [Hfixed Hothers]. split; [done|].
  intros Hne. unfold others in Hothers. rewrite (bool_decide_false _ Hne) in Hothers.
  case_bool_decide; by simplify_eq.
Qed.

End Views.

(** ** What an execution settles *)

Section Settling.
Context {K : Type} `{!JupyterKernelClient K}.
Implicit Types (w : World K) (k : K).

Lemma fmap_through {A B C} (v : A -> B) (F : B -> C) (G : A -> C) (l l' : list A) :
  (forall a, G a = F (v a)) -> v <$> l' = v <$> l -> G <$> l' = G <$> l.
Proof.
  intros HG Hv.
  rewrite (list_fmap_ext G (F ∘ v) l') by (intros; apply HG).
  rewrite (list_fmap_ext G (F ∘ v) l) by (intros; apply HG).
  by rewrite !list_fmap_compose, Hv.
Qed.

(** X3: a code cell is executed on a ready client.  Afterwards the cell's
    execution count is the one the client resolved with when it resolved
    with one; it is the count the cell had before when the client resolved
    with [null] or the promise rejected.  The counts of the other cells are
    as before. *)
Theorem executeCell_execution_count snap cellId cell k w :
  kernelClient w = Some k -> isReady k = true ->
  find_cell snap cellId = Some cell -> type cell = code ->
  executionCount <$> cells (store (exec (executeCell snap cellId) w)) =
    (fun c => if bool_decide (id c = cellId)
              then count_after (settled (executeCode k (source cell)).1) c
              else executionCount c) <$> cells (store w).
Proof.
  intros Hk Hready Hfind Hcode. unfold exec at 1.
  rewrite (executeCell_phases snap cellId cell k) by done. cbn [snd].
  set (w1 := exec (pending snap cellId (source cell) k) w).
  assert (Hv : (fun c => (id c, executionCount c)) <$> cells (store w1)
               = (fun c => (id c, executionCount c)) <$> cells (store w)).
  { apply pending_view. by intros c _. }
  destruct (settled _) as [result|e]; cbn [count_after].
  - rewrite commit_unfold. cbn [store].
    rewrite (reduce_view executionCount (SetKernelStatus idle)) by done.
    rewrite (reduce_view executionCount (UpdateCellStatus cellId _)) by done.
    rewrite (reduce_view executionCount (UpdateCellOutputs cellId _)) by done.
    destruct (result_executionCount result) as [n|].
    + cbn [exec updateCellExecutionCount dispatch snd store reduce with_cells cells].
      unfold update_cell. rewrite <- list_fmap_compose.
      rewrite (list_fmap_ext _
                 (fun c => if bool_decide (id c = cellId) then Some n else executionCount c)
                 (cells (store w1))) by (intros i c _; simpl; by case_bool_decide).
      apply (fmap_through (fun c => (id c, executionCount c))
               (fun p => if bool_decide (p.1 = cellId) then Some n else p.2));
        [done|done].
    + etrans; [apply (fmap_through (fun c => (id c, executionCount c)) snd); done|].
      apply list_fmap_ext. intros i c _. by case_bool_decide.
  - rewrite recover_view by by intros c _.
    etrans; [apply (fmap_through (fun c => (id c, executionCount c)) snd); done|].
    apply list_fmap_ext. intros i c _. by case_bool_decide.
Qed.

(** X4: whenever [executeCell] has submitted a cell, then on its return the
    kernel status is idle, whatever the status callbacks said last, and the
    cell's status is [completed] or [error], never [running]: its run button
    is enabled again. *)
Theorem executeCell_settles snap cellId cell k w :
  kernelClient w = Some k -> isReady k = true ->
  find_cell snap cellId = Some cell -> type cell = code ->
  let w' := exec (executeCell snap cellId) w in
  kernelStatus (store w') = idle
  /\ forall c', cell_at w' cellId c' ->
       terminal (status c') = true /\ CellView.runDisabled c' = false.
Proof.
  intros Hk Hready Hfind Hcode w'. subst w'. unfold exec.
  rewrite (executeCell_phases snap cellId cell k) by done. cbn [snd].
  destruct (settled _) as [result|e]; split.
  - by rewrite commit_unfold.
  - intros c' [_ Hst]%commit_cell. unfold CellView.runDisabled. rewrite Hst.
    by destruct (existsb _ _).
  - by rewrite recover_unfold.
  - intros c' Hst%recover_cell. unfold CellView.runDisabled. by rewrite Hst.
Qed.

(** X5: from the submission until the promise settles, the cell's status is
    [running] whatever events arrive (outputs, status changes, interrupt
    clicks): its run button is disabled and, for a code cell, the gutter
    shows the spinner. *)
Theorem pending_cell_running snap cellId src k w c' :
  cell_at (exec (pending snap cellId src k) w) cellId c' ->
  status c' = running
  /\ CellView.runDisabled c' = true
  /\ (type c' = code -> CellView.gutter c' = CellView.Icon CellView.Loader2).
Proof.
  intros [Hc' Hid].
  assert (Hrun : status c' = running).
  { revert c' Hc' Hid.
    apply (pending_invariant (fun w' =>
      forall c', c' ∈ cells (store w') -> id c' = cellId -> status c' = running)).
    - intros ev w' _ Hw' c'. destruct ev as [o|st|].
      + cbn [deliver exec updateCellOutputs dispatch snd store reduce with_cells cells].
        intros (c & Hc & [[Hidc ->]|[Hne ->]])%elem_of_update_cell Hid; [|done].
        by apply (Hw' c).
      + apply Hw'.
      + cbn [deliver]. unfold exec. rewrite interruptKernel_run. cbn [snd].
        destruct (kernelClient w') as [k0|]; [|apply Hw'].
        destruct (interrupt k0).1; apply Hw'.
    - cbn [store reduce with_cells cells]. intros c'.
      intros (c & Hc & [[Hidc ->]|[Hne ->]])%elem_of_update_cell Hid; [|done].
      apply elem_of_update_cell in Hc as (c0 & _ & [[_ ->]|[Hne ->]]); done. }
  split; [done|]. split.
  - unfold CellView.runDisabled. by rewrite Hrun.
  - intros Hcode. unfold CellView.gutter, CellView.getStatusIcon. by rewrite Hcode, Hrun.
Qed.

End Settling.

(** ** Batches and the handlers of the toolbar *)

Section Handlers.
Context {K : Type} `{!JupyterKernelClient K}.
Implicit Types (w : World K) (k : K).

(** The loop of [runAllCells]. *)
Let body (snap : list NotebookCell) : NotebookCell -> Task K unit :=
  fun cell =>
    if bool_decide (type cell = code) then executeCell snap (id cell) else ret tt.

Lemma total_body snap cell : total (body snap cell).
Proof. unfold body. case_bool_decide; [apply total_executeCell|apply total_ret]. Qed.

Lemma runAllCells_unfold snap w :
  runAllCells snap w =
    (Normal tt,
     exec (log (toast_success "All cells executed")) (exec (for_of snap (body snap)) w)).
Proof.
  unfold runAllCells. fold (body snap).
  rewrite bind_total by (apply total_for_of, total_body). done.
Qed.

Lemma loop_not_ready snap xs w :
  not_ready (kernelClient w) = true ->
  exec (for_of xs (body snap)) w =
    mkWorld (store w) (kernelClient w)
      (calls w ++ ((fun _ => toast_error "Kernel is not ready")
                     <$> filter (fun c => type c = code) xs)).
Proof.
  revert w. induction xs as [|x xs IH]; intros w Hnr.
  { simpl. rewrite app_nil_r. by destruct w. }
  cbn [for_of]. rewrite exec_bind by apply total_body.
  unfold body at 2. destruct (decide (type x = code)) as [Hcode|Hcode].
  - rewrite bool_decide_true, filter_cons_True by done.
    unfold exec at 2. rewrite executeCell_guard by done. cbn [log snd].
    rewrite IH by done. cbn [store kernelClient calls].
    by rewrite fmap_cons, <- app_assoc.
  - rewrite bool_decide_false, filter_cons_False by done. by apply IH.
Qed.

(** X6: run all while the kernel client is missing or not ready: nothing is
    submitted and the store is unchanged; one toast "Kernel is not ready" is
    shown per code cell of the notebook, and then the toast "All cells
    executed" all the same. *)
Theorem runAllCells_not_ready snap w :
  not_ready (kernelClient w) = true ->
  runAllCells snap w =
    (Normal tt,
     mkWorld (store w) (kernelClient w)
       (calls w
        ++ ((fun _ => toast_error "Kernel is not ready")
              <$> filter (fun c => type c = code) snap)
        ++ [toast_success "All cells executed"])).
Proof.
  intros Hnr. rewrite runAllCells_unfold, loop_not_ready by done.
  cbn [exec log snd store kernelClient calls]. by rewrite <- app_assoc.
Qed.

Lemma loop_view {A} (f : NotebookCell -> A) snap xs w :
  (forall x, x ∈ xs -> type x = code -> blind_to_execution f (id x)) ->
  f <$> cells (store (exec (for_of xs (body snap)) w)) = f <$> cells (store w).
Proof.
  intros Hblind.
  apply (for_of_invariant (fun w' => f <$> cells (store w') = f <$> cells (store w)));
    [apply total_body| |done].
  intros x w' Hx <-. unfold body. case_bool_decide; [|done].
  by apply executeCell_view, Hblind.
Qed.

(** X7: whatever the client does and however the cells end, [runAllCells]
    returns normally and the last thing it does is show the toast "All cells
    executed".  It keeps the cells of the store in place, never changes the
    id, type, source or metadata of a cell, and leaves untouched every cell
    whose id is not the id of a code cell of the notebook it runs. *)
Theorem runAllCells_frame snap w :
  let w' := exec (runAllCells snap) w in
  let batch := id <$> filter (fun c => type c = code) snap in
  (runAllCells snap w).1 = Normal tt
  /\ last (calls w') = Some (toast_success "All cells executed")
  /\ Forall2 (fun c c' => fixed_part c' = fixed_part c /\ (id c ∉ batch -> c' = c))
       (cells (store w)) (cells (store w')).
Proof.
  intros w' batch. subst w'. unfold exec at 1 2. rewrite runAllCells_unfold. cbn [fst snd].
  split; [done|]. split.
  { cbn [exec log snd calls]. apply last_snoc. }
  assert (Hview : (fun c => (fixed_part c, outside batch c))
                    <$> cells (store (exec (for_of snap (body snap)) w))
                  = (fun c => (fixed_part c, outside batch c)) <$> cells (store w)).
  { apply loop_view. intros x Hx Hcode.
    assert (Hin : id x ∈ batch).
    { apply list_elem_of_fmap_2. by apply list_elem_of_filter. }
    split; [intros c Hc; split; intros|intros c Hc n];
      rewrite <- Hc in Hin; unfold outside; simpl; by rewrite !bool_decide_true. }
  eapply Forall2_impl; [exact (fmap_eq_Forall2 _ _ _ Hview)|]. cbv beta.
  intros c c' Heq. apply pair_equal_spec in Heq as [Hfixed Houtside]. split; [done|].
  intros Hout. unfold outside in Houtside.
  rewrite (bool_decide_false _ Hout) in Houtside. case_bool_decide; by simplify_eq.
Qed.

(** X8: [interruptKernel] never throws and never changes a cell.  Without a
    kernel client it does nothing.  When [interrupt()] resolves, the kernel
    status becomes idle, so the toolbar disables its Interrupt button, also
    when a cell is still running.  When [interrupt()] rejects, the store is
    exactly as before, kernel status included. *)
Theorem interruptKernel_outcomes w :
  let w' := exec interruptKernel w in
  (interruptKernel w).1 = Normal tt
  /\ cells (store w') = cells (store w)
  /\ match kernelClient w with
     | None => w' = w
     | Some k =>
         match (interrupt k).1 with
         | Normal _ =>
             kernelStatus (store w') = idle
             /\ Toolbar.interruptDisabled (kernelStatus (store w')) = true
         | Throw e =>
             store w' = store w
             /\ last (calls w') = Some (toast_error "Failed to interrupt kernel")
         end
     end.
Proof.
  intros w'. subst w'. unfold exec. rewrite interruptKernel_run. cbn [fst snd].
  split; [done|].
  destruct (kernelClient w) as [k|]; [|done].
  destruct (interrupt k).1 as [[]|e]; cbn [store calls]; [done|].
  split; [done|]. split; [done|].
  by rewrite (last_app_cons _ [_; _]).
Qed.

(** X9: with a kernel client, [restartKernel] never throws and always ends
    with kernel status idle, whether [restart()] resolved or rejected: the
    toolbar then reads "Ready", Run All and Restart are enabled and Interrupt
    is disabled.  Without a kernel client it does nothing. *)
Theorem restartKernel_toolbar w :
  let w' := exec restartKernel w in
  (restartKernel w).1 = Normal tt
  /\ match kernelClient w with
     | None => w' = w
     | Some _ =>
         kernelStatus (store w') = idle
         /\ Toolbar.getKernelStatusDisplay (kernelStatus (store w')) = "Ready"
         /\ Toolbar.runAllDisabled (kernelStatus (store w')) = false
         /\ Toolbar.restartDisabled (kernelStatus (store w')) = false
         /\ Toolbar.interruptDisabled (kernelStatus (store w')) = true
     end.
Proof.
  intros w'. subst w'. unfold exec. rewrite restartKernel_run. cbn [fst snd].
  split; [done|].
  destruct (kernelClient w) as [k|]; [|done].
  by destruct (restart k).1 as [[]|e].
Qed.

(** X10: [initKernel] always ends the loading state and never touches a
    cell.  When [getKernelClient] returns and [startSession] resolves, the
    client is stored, the kernel status is idle and an earlier [initError] is
    kept as it was.  When either of them throws, the kernel status is
    disconnected and the thrown value is logged; [initError] is the message
    of a thrown [Error] and "Unknown error" for any other thrown value, so
    the "Failed to Connect" screen is rendered, except for an [Error] with an
    empty message, for which the notebook is rendered with a disconnected
    kernel.  The client is stored when [getKernelClient] returned it; when
    [getKernelClient] threw, the client of the component is what it was. *)
Theorem initKernel_outcomes
    (getKernelClient : string -> option string -> Attempt K)
    (startSession : K -> string -> Attempt unit * K)
    (jupyterUrl : string) (jupyterToken : option string) (c : Component) :
  let c' := initKernel getKernelClient startSession jupyterUrl jupyterToken c in
  isInitializing c' = false
  /\ cells (store (world c')) = cells (store (world c))
  /\ kernelClient (world c') =
       match getKernelClient jupyterUrl jupyterToken with
       | Returned client => Some (startSession client "python3").2
       | Threw _ => kernelClient (world c)
       end
  /\ match initKernel_thrown getKernelClient startSession jupyterUrl jupyterToken with
     | None =>
         kernelStatus (store (world c')) = idle
         /\ initError c' = initError c
         /\ console c' = console c
     | Some thrown =>
         kernelStatus (store (world c')) = disconnected
         /\ initError c' = Some (error_message thrown)
         /\ console c' = console c ++ [("Failed to initialize kernel:", thrown)]
         /\ last (calls (world c'))
            = Some (toast_error "Failed to connect to Jupyter kernel")
         /\ render c' =
              match thrown with
              | ThrownError e =>
                  if bool_decide (message e = "") then NotebookView
                  else FailedToConnectView (message e)
              | ThrownValue _ => FailedToConnectView "Unknown error"
              end
     end.
Proof.
  intros c'. subst c'. unfold initKernel, initKernel_thrown.
  destruct (getKernelClient jupyterUrl jupyterToken) as [client|thrown].
  - destruct (startSession client "python3") as [[[]|thrown] k]; cbn [fst snd].
    + done.
    + repeat split; try done.
      * cbn [initKernel_catch world exec setKernelStatus dispatch log bind snd calls].
        apply last_snoc.
      * by destruct thrown.
  - repeat split; try done.
    + cbn [initKernel_catch world exec setKernelStatus dispatch log bind snd calls].
      apply last_snoc.
    + by destruct thrown.
Qed.

(** X11: a successful [initKernel] does not clear the error of an earlier
    failed one: after an attempt that failed, in [getKernelClient] or in
    [startSession], with a non-empty message, followed by one that succeeds,
    the kernel status is idle and the component still renders the "Failed to
    Connect" screen with the old message. *)
Theorem initKernel_keeps_old_error
    (get1 get2 : string -> option string -> Attempt K)
    (start1 start2 : K -> string -> Attempt unit * K)
    (jupyterUrl : string) (jupyterToken : option string) (c : Component) thrown :
  initKernel_thrown get1 start1 jupyterUrl jupyterToken = Some thrown ->
  error_message thrown <> "" ->
  initKernel_thrown get2 start2 jupyterUrl jupyterToken = None ->
  let c' := initKernel get2 start2 jupyterUrl jupyterToken
              (initKernel get1 start1 jupyterUrl jupyterToken c) in
  kernelStatus (store (world c')) = idle
  /\ render c' = FailedToConnectView (error_message thrown).
Proof.
  intros Hfirst Hmsg Hsecond c'. subst c'.
  assert (Herr : initError (initKernel get1 start1 jupyterUrl jupyterToken c)
                 = Some (error_message thrown)).
  { revert Hfirst. unfold initKernel, initKernel_thrown.
    destruct (get1 jupyterUrl jupyterToken) as [client|t].
    - destruct (start1 client "python3") as [[[]|t] k]; cbn [fst]; [done|].
      by intros [= ->].
    - by intros [= ->]. }
  set (c1 := initKernel get1 start1 jupyterUrl jupyterToken c) in *.
  revert Hsecond. unfold initKernel, initKernel_thrown.
  destruct (get2 jupyterUrl jupyterToken) as [client|t]; [|done].
  destruct (start2 client "python3") as [[[]|t] k]; cbn [fst]; [|done].
  intros _. split; [done|].
  unfold render. cbn [isInitializing initError]. rewrite Herr.
  by rewrite bool_decide_false.
Qed.

End Handlers.

(** ** Lines, heights and the exported document *)

Section Lines.
Import NotebookExport CellView.

Lemma split_newline_pieces s : length (split_newline s) = S (newlines s).
Proof.
  induction s as [|c s IH]; [done|]. simpl.
  destruct (Ascii.eqb c "010"); simpl; [by rewrite IH|].
  destruct (split_newline s); simpl in *; [done|lia].
Qed.

(** X12: [split('\n')] gives one more piece than the source has newline
    characters: that is the number of lines of a cell in the exported
    document and the line count the cell component works with, so neither
    is ever zero, also for an empty source. *)
Theorem exported_line_count cell :
  length (exported_source (exportCell cell)) = S (newlines (source cell))
  /\ lineCount cell = Z.of_nat (S (newlines (source cell)))
  /\ exported_source (exportCell cell) <> [].
Proof.
  unfold lineCount. cbn [exportCell exported_source].
  rewrite split_newline_pieces. repeat split. apply split_newline_nonempty.
Qed.

(** X13: the height of a cell's editor is clamped between 80 and 500: it is
    80 up to two lines, [19 * lines + 40] from 3 to 24 lines, and 500 from 25
    lines on; the markdown text area has at least three rows. *)
Theorem editorHeight_clamped cell :
  (1 <= lineCount cell)%Z
  /\ (80 <= editorHeight cell <= 500)%Z
  /\ (editorHeight cell = 80 <-> lineCount cell <= 2)%Z
  /\ (editorHeight cell = 500 <-> 25 <= lineCount cell)%Z
  /\ (3 <= lineCount cell <= 24 -> editorHeight cell = lineCount cell * 19 + 40)%Z
  /\ (textareaRows cell = 3 <-> lineCount cell <= 3)%Z.
Proof.
  assert (Hpos : (1 <= lineCount cell)%Z).
  { unfold lineCount. rewrite split_newline_pieces. lia. }
  unfold editorHeight, textareaRows. lia.
Qed.

Lemma split_newline_inj s s' : split_newline s = split_newline s' -> s = s'.
Proof.
  intros Heq. by rewrite <- (join_split_newline s), Heq, join_split_newline.
Qed.

(** X14: what the exported document keeps of the notebook.  Two notebooks
    are exported to the same document exactly when they have the same
    number of cells and their cells agree, in order, on type, source,
    outputs, execution count and metadata (an unset metadata counting as the
    empty object); the ids and the statuses of the cells are not exported. *)
Theorem exportNotebook_eq snap snap' :
  exportNotebook snap = exportNotebook snap'
  <-> Forall2 (fun c c' =>
        type c = type c' /\ source c = source c' /\ outputs c = outputs c'
        /\ executionCount c = executionCount c'
        /\ default [] (metadata c) = default [] (metadata c')) snap snap'.
Proof.
  split.
  - intros Heq. assert (Hcells : exportCell <$> snap = exportCell <$> snap').
    { unfold exportNotebook in Heq. by injection Heq. }
    clear Heq. revert snap' Hcells.
    induction snap as [|c snap IH]; intros [|c' snap'] Hcells; try done.
    rewrite !fmap_cons in Hcells. apply (inj2 cons) in Hcells as [Hc Hrest].
    constructor; [|by apply IH].
    unfold exportCell in Hc. injection Hc as Htype Hsource Houtputs Hcount Hmeta.
    by apply split_newline_inj in Hsource.
  - intros Hall. unfold exportNotebook. f_equal.
    induction Hall as [|c c' snap snap' (Htype & Hsource & Houtputs & Hcount & Hmeta) _ IH];
      [done|].
    rewrite !fmap_cons, IH. f_equal. unfold exportCell.
    by rewrite Htype, Hsource, Houtputs, Hcount, Hmeta.
Qed.

End Lines.

(** ** The renderer and the content types it does not list *)

Section Unlisted.
Import CellOutput.

Lemma render_as_no_placeholder mimeType v :
  render_as mimeType v <> Some NoRenderableOutput.
Proof. unfold render_as. by repeat case_match. Qed.

Lemma first_renderable_placeholder data candidates :
  (forall m, m ∈ candidates -> forall v, is_Some (render_as m v)) ->
  first_renderable data candidates = NoRenderableOutput ->
  forall m, m ∈ candidates -> truthy_payload data m = None.
Proof.
  induction candidates as [|m0 rest IH]; intros Hknown Hnone m Hm;
    [by apply elem_of_nil in Hm|].
  simpl in Hnone. destruct (truthy_payload data m0) as [v|] eqn:Hv.
  - destruct (Hknown m0 (list_elem_of_here _ _) v) as [r Hr]. rewrite Hr in Hnone.
    subst r. by destruct (render_as_no_placeholder m0 v).
  - apply elem_of_cons in Hm as [->|Hm]; [done|].
    apply IH; [|done|done]. intros m' Hm'. apply Hknown. by right.
Qed.

(** X15: the placeholder "No renderable output" is rendered exactly when
    none of the six listed content types has a truthy payload. *)
Theorem DisplayDataOutput_placeholder data :
  DisplayDataOutput data = NoRenderableOutput
  <-> forall m, m ∈ mimeTypes -> truthy_payload data m = None.
Proof.
  split; [|apply first_renderable_skip].
  apply first_renderable_placeholder. intros m Hm v. by apply render_as_known.
Qed.

Lemma first_renderable_ext data data' candidates :
  (forall m, m ∈ candidates -> data' !! m = data !! m) ->
  first_renderable data' candidates = first_renderable data candidates.
Proof.
  induction candidates as [|m0 rest IH]; intros Hsame; [done|]. simpl.
  unfold truthy_payload. rewrite Hsame by by left.
  rewrite IH; [done|]. intros m Hm. apply Hsame. by right.
Qed.

(** X16: the renderer looks at the six listed content types only: adding,
    changing or removing the payload of any other content type (a vendor
    type, say) does not change what is rendered. *)
Theorem DisplayDataOutput_unlisted data mimeType v :
  mimeType ∉ mimeTypes ->
  DisplayDataOutput (<[mimeType := v]> data) = DisplayDataOutput data
  /\ DisplayDataOutput (delete mimeType data) = DisplayDataOutput data.
Proof.
  intros Hout. split; apply first_renderable_ext; intros m Hm.
  - apply lookup_insert_ne. by intros ->.
  - apply lookup_delete_ne. by intros ->.
Qed.

End Unlisted.

(** ** The further properties on the example notebook *)

Lemma executeCell_nothing_to_run_witness :
  not_ready (kernelClient (Demo.ready_world [Demo.run_print])) = false
  /\ find_cell Demo.notebook "n" = Some Demo.note
  /\ executeCell Demo.notebook "n" (Demo.ready_world [Demo.run_print])
     = (Normal tt, Demo.ready_world [Demo.run_print]).
Proof.
  split; [reflexivity|]. split; [reflexivity|].
  apply (executeCell_nothing_to_run Demo.notebook "n" (Demo.ready_world [Demo.run_print]));
    [reflexivity|].
  intros cell Hcell. injection Hcell as <-. discriminate.
Defined.

Lemma executeCell_execution_count_witness :
  find_cell Demo.notebook "b" = Some Demo.cellB
  /\ executionCount <$> cells (store (exec (executeCell Demo.notebook "b")
                                        (Demo.ready_world [Demo.run_lost])))
     = [None; None; Some 7%Z].
Proof.
  split; [reflexivity|].
  refine (eq_trans (executeCell_execution_count Demo.notebook "b" Demo.cellB
                      (Scripted.client true [Demo.run_lost])
                      (Demo.ready_world [Demo.run_lost]) _ _ _ _) _); reflexivity.
Defined.

Lemma executeCell_settles_witness :
  isReady (Scripted.client true [Demo.run_boom]) = true
  /\ kernelStatus (store (exec (executeCell Demo.notebook "a")
                            (Demo.ready_world [Demo.run_boom]))) = idle.
Proof.
  split; [reflexivity|].
  refine (proj1 (executeCell_settles Demo.notebook "a" Demo.cellA
                   (Scripted.client true [Demo.run_boom])
                   (Demo.ready_world [Demo.run_boom]) _ _ _ _)); reflexivity.
Defined.

Lemma pending_cell_running_witness :
  let k := Scripted.client true [Demo.run_interrupted] in
  let running_a :=
    mkCell "a" code "raise ValueError('boom')" [] None running None in
  cell_at (exec (pending Demo.notebook "a" (source Demo.cellA) k)
             (Demo.ready_world [Demo.run_interrupted])) "a" running_a
  /\ CellView.runDisabled running_a = true.
Proof.
  assert (Hcell : cell_at
            (exec (pending Demo.notebook "a" (source Demo.cellA)
                     (Scripted.client true [Demo.run_interrupted]))
               (Demo.ready_world [Demo.run_interrupted]))
            "a" (mkCell "a" code "raise ValueError('boom')" [] None running None)).
  { split; [|reflexivity]. apply list_elem_of_In. vm_compute. tauto. }
  split; [exact Hcell|].
  exact (proj1 (proj2 (pending_cell_running _ _ _ _ _ _ Hcell))).
Defined.

Lemma runAllCells_not_ready_witness :
  not_ready (kernelClient Demo.starting_world) = true
  /\ runAllCells Demo.notebook Demo.starting_world
     = (Normal tt,
        mkWorld (store Demo.starting_world) (kernelClient Demo.starting_world)
          [toast_error "Kernel is not ready"; toast_error "Kernel is not ready";
           toast_success "All cells executed"]).
Proof.
  split; [reflexivity|].
  refine (eq_trans (runAllCells_not_ready Demo.notebook Demo.starting_world _) _);
    reflexivity.
Defined.

Lemma initKernel_keeps_old_error_witness :
  let fresh := mkComponent (Scripted.world Demo.notebook None) true None [] in
  let get (_ : string) (_ : option string) := Returned (Scripted.client true []) in
  let rejects (k : Scripted.Client) (_ : string) :=
    (Threw (ThrownError Demo.connection_lost), k) in
  let resolves (k : Scripted.Client) (_ : string) := (Returned tt, k) in
  initKernel_thrown get rejects "http://localhost:8888" None
    = Some (ThrownError Demo.connection_lost)
  /\ error_message (ThrownError Demo.connection_lost) <> ""
  /\ render (initKernel get resolves "http://localhost:8888" None
               (initKernel get rejects "http://localhost:8888" None fresh))
     = FailedToConnectView "socket closed".
Proof.
  split; [reflexivity|]. split; [discriminate|].
  refine (proj2 (initKernel_keeps_old_error
                   (fun _ _ => Returned (Scripted.client true []))
                   (fun _ _ => Returned (Scripted.client true []))
                   (fun k _ => (Threw (ThrownError Demo.connection_lost), k))
                   (fun k _ => (Returned tt, k))
                   "http://localhost:8888" None
                   (mkComponent (Scripted.world Demo.notebook None) true None [])
                   (ThrownError Demo.connection_lost) _ _ _));
    [reflexivity|discriminate|reflexivity].
Defined.

Lemma DisplayDataOutput_unlisted_witness :
  ("application/vnd.plotly.v1+json" ∉ CellOutput.mimeTypes)
  /\ CellOutput.DisplayDataOutput
       (<["application/vnd.plotly.v1+json" := JObj [("data", "[]")]]> Demo.plot)
     = CellOutput.DisplayDataOutput Demo.plot.
Proof.
  assert (Hout : "application/vnd.plotly.v1+json" ∉ CellOutput.mimeTypes).
  { apply (bool_decide_unpack _). vm_compute. exact I. }
  split; [exact Hout|].
  exact (proj1 (DisplayDataOutput_unlisted Demo.plot _ (JObj [("data", "[]")]) Hout)).
Defined.
